(** * Behaviour-change agent: technique selection, fallback generation and
      the feedback log

    A shallow embedding of [main_agent.py] ([BehaviorChangeAgent]) and
    [feedback_manager.py] ([FeedbackManager]).

    Conventions of the embedding.
    - A Python [str] is a Rocq [string]; the text is taken to be ASCII, on
      which [str.lower], [str.strip], [in] and [str.replace] are written out
      below.  A Python [int] is a [Z], a Python [float] a primitive
      binary64 [float].
    - A value loaded by [json.load] is a [json]; a [dict] is the association
      list of its items in insertion order, [None] is [JNull].
    - A computation that may raise returns a [result]; every exception named
      here is a subclass of Python's [Exception], which is what the source's
      [except Exception] clauses catch.
    - The text-generation client, the clock and the disk are the
      environment: the client is a state-passing oracle, the clock reading
      and the refusal of [open] are arguments of a call.
    - The catalog ([self.techniques]) is a list of loaded values; nothing
      is assumed of its entries unless a statement says so. *)

From Stdlib Require Import String Ascii List ZArith Bool Arith Lia.
From Stdlib Require Import Floats DecimalString DecimalZ DecimalPos.
Import ListNotations.
Local Open Scope list_scope.
Local Open Scope string_scope.

(* ================================================================== *)
(** * Python strings *)
(* ================================================================== *)

Module PyStr.

Definition nl : string := String "010"%char EmptyString.
Definition dquote : string := String "034"%char EmptyString.

Definition is_upper (c : ascii) : bool :=
  let n := nat_of_ascii c in (65 <=? n)%nat && (n <=? 90)%nat.

Definition lower_char (c : ascii) : ascii :=
  if is_upper c then ascii_of_nat (nat_of_ascii c + 32) else c.

(** [s.lower()] *)
Fixpoint lower (s : string) : string :=
  match s with
  | EmptyString => EmptyString
  | String c s' => String (lower_char c) (lower s')
  end.

(** The ASCII characters for which [str.isspace] holds: tab, line feed,
    vertical tab, form feed, carriage return, the four separators
    0x1c..0x1f, and the space. *)
Definition is_space (c : ascii) : bool :=
  let n := nat_of_ascii c in
  ((9 <=? n)%nat && (n <=? 13)%nat) || ((28 <=? n)%nat && (n <=? 32)%nat).

Fixpoint lstrip (s : string) : string :=
  match s with
  | EmptyString => EmptyString
  | String c s' => if is_space c then lstrip s' else s
  end.

Fixpoint rstrip (s : string) : string :=
  match s with
  | EmptyString => EmptyString
  | String c s' =>
      match rstrip s' with
      | EmptyString => if is_space c then EmptyString else String c EmptyString
      | r => String c r
      end
  end.

(** [s.strip()] *)
Definition strip (s : string) : string := rstrip (lstrip s).

(** [needle in hay] for two strings *)
Fixpoint contains (needle hay : string) : bool :=
  prefix needle hay ||
  match hay with
  | EmptyString => false
  | String _ hay' => contains needle hay'
  end.

(** Scan for [s.replace(old, new)] with a non-empty [old]: [skip] counts
    the characters of a match that are still to be dropped. *)
Fixpoint replace_scan (old new : string) (skip : nat) (s : string) : string :=
  match s with
  | EmptyString => EmptyString
  | String c s' =>
      match skip with
      | S k => replace_scan old new k s'
      | O =>
          if prefix old s
          then new ++ replace_scan old new (String.length old - 1) s'
          else String c (replace_scan old new 0 s')
      end
  end.

Fixpoint intersperse (new s : string) : string :=
  match s with
  | EmptyString => new
  | String c s' => new ++ String c (intersperse new s')
  end.

(** [s.replace(old, new)]: every occurrence, left to right, without
    overlap; an empty [old] matches before every character and at the
    end. *)
Definition replace (old new s : string) : string :=
  match old with
  | EmptyString => intersperse new s
  | _ => replace_scan old new 0 s
  end.

Definition chars (s : string) : list string :=
  map (fun c => String c EmptyString) (list_ascii_of_string s).

End PyStr.

(* ================================================================== *)
(** * Exceptions, results, loaded JSON values *)
(* ================================================================== *)

(** The exceptions that occur; [ServiceError] stands for whatever the
    text-generation client raises (network, quota, ...), [OSError] for a
    failing [open]. *)
Inductive exn : Type :=
| KeyError (key : string)
| TypeError
| AttributeError
| ValueError
| OSError
| ServiceError (msg : string).

Inductive result (A : Type) : Type :=
| Ok (a : A)
| Raise (e : exn).
Arguments Ok {A} a.
Arguments Raise {A} e.

Definition rbind {A B} (r : result A) (k : A -> result B) : result B :=
  match r with
  | Ok a => k a
  | Raise e => Raise e
  end.

Declare Scope result_scope.
Delimit Scope result_scope with result.
Notation "x <- r ; k" := (rbind r (fun x => k))
  (at level 61, r at next level, right associativity) : result_scope.

#[warnings="-register-all"]
Inductive json : Type :=
| JNull
| JBool (b : bool)
| JInt (n : Z)
| JFloat (literal : string)
| JStr (s : string)
| JList (items : list json)
| JObj (members : list (string * json)).

Module PyVal.
Import PyStr.

Fixpoint assoc {A} (key : string) (kv : list (string * A)) : option A :=
  match kv with
  | [] => None
  | (k, v) :: kv' => if String.eqb k key then Some v else assoc key kv'
  end.

(** [v[key]] with a string key: only a dict can be indexed by a string. *)
Definition getitem (v : json) (key : string) : result json :=
  match v with
  | JObj kv =>
      match assoc key kv with
      | Some x => Ok x
      | None => Raise (KeyError key)
      end
  | _ => Raise TypeError
  end.

(** [v == s] where [s] is a string: never raises, and is true only of
    the same string. *)
Definition eq_str (v : json) (s : string) : bool :=
  match v with
  | JStr t => String.eqb t s
  | _ => false
  end.

(** The items a [for] loop over [v] visits. *)
Definition iter (v : json) : result (list json) :=
  match v with
  | JList l => Ok l
  | JStr s => Ok (map JStr (chars s))
  | JObj kv => Ok (map (fun p => JStr (fst p)) kv)
  | _ => Raise TypeError
  end.

(** [v in s] where [s] is a string: the left operand must be a string. *)
Definition in_str (v : json) (s : string) : result bool :=
  match v with
  | JStr k => Ok (contains k s)
  | _ => Raise TypeError
  end.

(** [v.replace(old, new)]: only [str] has the method. *)
Definition str_replace (v : json) (old new : string) : result string :=
  match v with
  | JStr s => Ok (replace old new s)
  | _ => Raise AttributeError
  end.

(** [seq[0] if seq else None] on a list. *)
Definition first_or_none (l : list json) : json :=
  match l with
  | [] => JNull
  | x :: _ => x
  end.

End PyVal.

(* ================================================================== *)
(** * main_agent.py: [BehaviorChangeAgent] *)
(* ================================================================== *)

Module MainAgent.
Import PyStr PyVal.
Local Open Scope result_scope.

(** What [generate_content] hands back: reading [response.text] may
    itself raise (a blocked or empty answer). *)
Record response : Type := { text : result string }.

(** What a method does to the outside world, in order. *)
Inductive event : Type :=
| Generate (prompt : string)      (* one call of [model.generate_content] *)
| PrintError (e : exn).           (* the line printed by a handler *)

Section Agent.

(** The text-generation client: a black box with its own state. *)
Variable Service : Type.
Variable generate_content : string -> Service -> result response * Service.

(** [str(v)] of a loaded value that is not a string; it only ever
    reaches the text of a prompt. *)
Variable py_repr : json -> string.

Record World : Type := { service : Service; trace : list event }.

Definition M (A : Type) : Type := World -> result A * World.

Definition ret {A} (a : A) : M A := fun w => (Ok a, w).

Definition bind {A B} (m : M A) (k : A -> M B) : M B :=
  fun w =>
    match m w with
    | (Ok a, w') => k a w'
    | (Raise e, w') => (Raise e, w')
    end.

Definition lift {A} (r : result A) : M A := fun w => (r, w).

(** [try: body except Exception as e: handler] *)
Definition try_except {A} (body : M A) (handler : exn -> M A) : M A :=
  fun w =>
    match body w with
    | (Ok a, w') => (Ok a, w')
    | (Raise e, w') => handler e w'
    end.

Definition emit (ev : event) : M unit :=
  fun w => (Ok tt, {| service := service w; trace := trace w ++ [ev] |}).

Definition call_model (prompt : string) : M response :=
  fun w =>
    let (r, s') := generate_content prompt (service w) in
    (r, {| service := s'; trace := trace w ++ [Generate prompt] |}).

Definition print_error (e : exn) : M unit := emit (PrintError e).

Notation "x <-- m ;; k" := (bind m (fun x => k))
  (at level 61, m at next level, right associativity).
Notation "m ;;; k" := (bind m (fun _ => k))
  (at level 61, right associativity).

(** ** analyze_barrier *)

Definition analyze_prompt (barrier_text : string) : string :=
  "You are a psychology expert. Analyze this barrier:" ++ nl ++ nl ++
  dquote ++ barrier_text ++ dquote ++ nl ++ nl ++
  "Which COM-B component is missing?" ++ nl ++
  "- Capability: lack of skills, knowledge, or ability (they don't know HOW)" ++ nl ++
  "- Opportunity: lack of time, resources, or external support (external barriers)" ++ nl ++
  "- Motivation: lack of desire, willpower, or interest (they don't WANT to)" ++ nl ++ nl ++
  "Respond with ONLY ONE WORD: Capability, Opportunity, or Motivation" ++ nl ++ nl ++
  "Answer:".

Definition parse_component (component : string) : string :=
  if contains "capab" component then "capability"
  else if contains "opportun" component then "opportunity"
  else "motivation".

Definition analyze_body (barrier_text : string) : M string :=
  let prompt := analyze_prompt barrier_text in
  response <-- call_model prompt ;;
  t <-- lift (text response) ;;
  let component := lower (strip t) in
  ret (parse_component component).

Definition analyze_barrier (barrier_text : string) : M string :=
  try_except (analyze_body barrier_text)
    (fun e => print_error e ;;; ret "motivation").

(** ** select_technique *)

(** [for keyword in ...: if keyword in barrier_lower: return tech]:
    [Ok true] when the loop returned, [Ok false] when it ran out. *)
Fixpoint keyword_loop (keywords : list json) (barrier_lower : string)
  : result bool :=
  match keywords with
  | [] => Ok false
  | keyword :: rest =>
      hit <- in_str keyword barrier_lower ;
      if hit then Ok true else keyword_loop rest barrier_lower
  end.

(** The first [for tech in self.techniques] loop: [Ok (Some tech)] when
    it returned [tech], [Ok None] when it ran to the end. *)
Fixpoint keyword_pass (techniques : list json)
    (target_component barrier_lower : string) : result (option json) :=
  match techniques with
  | [] => Ok None
  | tech :: rest =>
      tc <- getitem tech "target_component" ;
      if eq_str tc target_component then
        kws <- getitem tech "barrier_keywords" ;
        keywords <- iter kws ;
        hit <- keyword_loop keywords barrier_lower ;
        if hit then Ok (Some tech)
        else keyword_pass rest target_component barrier_lower
      else keyword_pass rest target_component barrier_lower
  end.

(** The second loop. *)
Fixpoint component_pass (techniques : list json) (target_component : string)
  : result (option json) :=
  match techniques with
  | [] => Ok None
  | tech :: rest =>
      tc <- getitem tech "target_component" ;
      if eq_str tc target_component then Ok (Some tech)
      else component_pass rest target_component
  end.

(** The body of the [try]. *)
Definition select_body (techniques : list json)
    (barrier_text target_component : string) : result json :=
  let barrier_lower := lower barrier_text in
  r1 <- keyword_pass techniques target_component barrier_lower ;
  match r1 with
  | Some tech => Ok tech
  | None =>
      r2 <- component_pass techniques target_component ;
      match r2 with
      | Some tech => Ok tech
      | None => Ok (first_or_none techniques)
      end
  end.

Definition select_technique (techniques : list json)
    (barrier_text target_component : string) : M json :=
  try_except (lift (select_body techniques barrier_text target_component))
    (fun e => print_error e ;;; ret (first_or_none techniques)).

(** ** generate_intervention *)

(** [f"{v}"] *)
Definition format_value (v : json) : string :=
  match v with
  | JStr s => s
  | _ => py_repr v
  end.

Definition final_prompt (user_goal barrier_text : string)
    (name theory : json) (prompt_template : string) : string :=
  "You are a warm, supportive behavior change coach." ++ nl ++ nl ++
  "User's Goal: " ++ user_goal ++ nl ++
  "User's Barrier: " ++ barrier_text ++ nl ++
  "Technique: " ++ format_value name ++
  " (based on " ++ format_value theory ++ ")" ++ nl ++ nl ++
  "Your task:" ++ nl ++
  "Create a personalized, friendly micro-intervention (2-3 sentences) using this framework:" ++ nl ++
  prompt_template ++ nl ++ nl ++
  "Requirements:" ++ nl ++
  "- Be warm and empathetic, like a supportive friend" ++ nl ++
  "- Make it personal to THEIR specific situation" ++ nl ++
  "- Be specific and actionable" ++ nl ++
  "- Keep it under 100 words" ++ nl ++
  "- Sound encouraging, not preachy" ++ nl ++ nl ++
  "Generate the intervention now:".

(** The dictionary both paths return, built key by key. *)
Definition result_dict (intervention_text : string) (technique : json)
  : result json :=
  name <- getitem technique "name" ;
  theory <- getitem technique "theory" ;
  duration <- getitem technique "duration_minutes" ;
  evidence <- getitem technique "evidence_base" ;
  component <- getitem technique "target_component" ;
  Ok (JObj [ ("intervention_text", JStr intervention_text);
             ("technique_name", name);
             ("theory", theory);
             ("duration_minutes", duration);
             ("evidence", evidence);
             ("target_component", component) ]).

Definition generate_body (user_goal : string) (technique : json)
    (barrier_text : string) : M json :=
  template <-- lift (getitem technique "prompt_template") ;;
  prompt_template <-- lift (str_replace template "[GOAL]" user_goal) ;;
  name <-- lift (getitem technique "name") ;;
  theory <-- lift (getitem technique "theory") ;;
  let prompt := final_prompt user_goal barrier_text name theory prompt_template in
  response <-- call_model prompt ;;
  t <-- lift (text response) ;;
  let intervention_text := strip t in
  lift (result_dict intervention_text technique).

(** The [except] branch: no call, only the goal and the technique. *)
Definition fallback (user_goal : string) (technique : json) : result json :=
  template <- getitem technique "prompt_template" ;
  filled <- str_replace template "[GOAL]" user_goal ;
  result_dict ("Let's work on " ++ user_goal ++ ". " ++ filled) technique.

Definition generate_intervention (user_goal : string) (technique : json)
    (barrier_text : string) : M json :=
  try_except (generate_body user_goal technique barrier_text)
    (fun e => print_error e ;;; lift (fallback user_goal technique)).

End Agent.

Arguments service {Service} _.
Arguments trace {Service} _.
Arguments Build_World {Service} _ _.
Arguments ret {Service A} _ _.
Arguments lift {Service A} _ _.
Arguments select_technique {Service} _ _ _ _.
Arguments analyze_body {Service} _ _ _.
Arguments analyze_barrier {Service} _ _ _.
Arguments generate_body {Service} _ _ _ _ _ _.
Arguments generate_intervention {Service} _ _ _ _ _ _.

End MainAgent.

(* ================================================================== *)
(** * feedback_manager.py: [FeedbackManager] *)
(* ================================================================== *)

(** The log file is taken at the level of the [csv] module: a file is
    the sequence of records that [csv.writer] wrote and [csv.reader]
    yields, a record is the list of its fields (the empty list for a
    blank line).  Quoting and line endings are the library's business.
    [None] is the absent file.  An [open] that fails raises [OSError]
    before anything is written. *)

Module FeedbackManager.
Import PyStr.
Local Open Scope result_scope.

Definition row : Type := list string.
Definition file : Type := list row.

(** The environment of one call: the clock reading, already formatted by
    [strftime], and whether [open] is refused. *)
Record Env : Type := { now : string; denied : bool }.

Definition header : row :=
  [ "timestamp"; "user_goal"; "user_barrier"; "target_component";
    "technique_used"; "theory"; "rating"; "would_try"; "feedback_text" ].

Definition py_open (env : Env) : result unit :=
  if denied env then Raise OSError else Ok tt.

(** [_initialize_csv]: not guarded by a [try]. *)
Definition _initialize_csv (env : Env) (fs : option file)
  : result (option file) :=
  match fs with
  | Some _ => Ok fs
  | None => _ <- py_open env ; Ok (Some [header])
  end.

(** [str(n)] for an [int]. *)
Definition str_of_int (n : Z) : string := NilZero.string_of_int (Z.to_int n).

Definition rows_of (fs : option file) : file :=
  match fs with
  | Some f => f
  | None => []
  end.

(** [save_feedback]: the returned flag and the file afterwards. *)
Definition save_feedback (env : Env) (fs : option file)
    (user_goal user_barrier target_component technique_name theory : string)
    (rating : Z) (would_try feedback_text : string) : bool * option file :=
  match py_open env with
  | Ok _ =>
      (true,
       Some (rows_of fs ++
             [ [ now env; user_goal; user_barrier; target_component;
                 technique_name; theory; str_of_int rating; would_try;
                 feedback_text ] ])%list)
  | Raise _ => (false, fs)
  end.

(** ** Floats

    A Python [float] is an IEEE 754 binary64 number, as Rocq's primitive
    [float] is. *)

(** The double nearest to an integer (ties to even, infinite beyond the
    range). *)
Definition float_of_Z (z : Z) : float :=
  SF2Prim (binary_normalize prec emax z 0 false).

(** The integer whose [str] is [s], if there is one. *)
Definition int_of_str (s : string) : option Z :=
  match NilZero.int_of_string s with
  | Some d =>
      let z := Z.of_int d in
      if String.eqb (str_of_int z) s then Some z else None
  | None => None
  end.

(** [sum(xs)] over floats: from the integer 0, left to right.  (From
    version 3.12 on CPython also carries a correction term for the
    rounding error of the running sum; where every partial sum is exact,
    as with integer ratings, the result is the same.) *)
Definition py_sum (xs : list float) : float :=
  fold_left PrimFloat.add xs (float_of_Z 0).

(** [a / b] for two [int]s (both below 2^53 in absolute value, as any
    count of records is). *)
Definition int_truediv (a b : Z) : float :=
  PrimFloat.div (float_of_Z a) (float_of_Z b).

(** ** Rows as [csv.DictReader] yields them *)

Inductive cell : Type :=
| CStr (s : string)            (* a field *)
| CNone                        (* [restval], for a missing field *)
| CRest (extra : list string). (* the surplus fields, under [restkey] *)

(** A [dict] in insertion order; the key [None] is [restkey]. *)
Definition dict (V : Type) : Type := list (option string * V).

Definition key_eqb (a b : option string) : bool :=
  match a, b with
  | Some x, Some y => String.eqb x y
  | None, None => true
  | _, _ => false
  end.

Fixpoint dict_get {V} (k : option string) (d : dict V) : option V :=
  match d with
  | [] => None
  | (k', v) :: d' => if key_eqb k' k then Some v else dict_get k d'
  end.

(** [d[k] = v] *)
Fixpoint dict_set {V} (k : option string) (v : V) (d : dict V) : dict V :=
  match d with
  | [] => [(k, v)]
  | (k', v') :: d' =>
      if key_eqb k' k then (k', v) :: d' else (k', v') :: dict_set k v d'
  end.

(** [dict(zip(fieldnames, fields))] *)
Definition zip_dict (fieldnames fields : row) : dict cell :=
  fold_left (fun d kv => dict_set (Some (fst kv)) (CStr (snd kv)) d)
            (combine fieldnames fields) [].

Definition dict_row (fieldnames fields : row) : dict cell :=
  let d := zip_dict fieldnames fields in
  let lf := List.length fieldnames in
  let lr := List.length fields in
  if (lf <? lr)%nat then dict_set None (CRest (skipn lf fields)) d
  else if (lr <? lf)%nat then
    fold_left (fun d k => dict_set (Some k) CNone d) (skipn lr fieldnames) d
  else d.

Definition is_blank (r : row) : bool :=
  match r with
  | [] => true
  | _ => false
  end.

(** [list(csv.DictReader(f))]: the first record names the fields, blank
    records after it are skipped. *)
Definition read_rows (f : file) : list (dict cell) :=
  match f with
  | [] => []
  | fieldnames :: records =>
      map (dict_row fieldnames) (filter (fun r => negb (is_blank r)) records)
  end.

(** [row[key]] *)
Definition row_getitem (r : dict cell) (key : string) : result cell :=
  match dict_get (Some key) r with
  | Some c => Ok c
  | None => Raise (KeyError key)
  end.

Fixpoint mapM {A B} (f : A -> result B) (l : list A) : result (list B) :=
  match l with
  | [] => Ok []
  | x :: l' => y <- f x ; ys <- mapM f l' ; Ok (y :: ys)
  end.

(** The key of a [dict] must be hashable: a list is not. *)
Definition dict_key (c : cell) : result (option string) :=
  match c with
  | CStr s => Ok (Some s)
  | CNone => Ok None
  | CRest _ => Raise TypeError
  end.

Section Statistics.

(** [float(s)] on text that is not what [str] prints for an integer
    (signs, fractions, exponents, blanks, [inf], [nan], ...): CPython's
    parser, [None] when it raises [ValueError]. *)
Variable float_other : string -> option float.

Definition float_of_str (s : string) : option float :=
  match int_of_str s with
  | Some z => Some (float_of_Z z)
  | None => float_other s
  end.

(** [float(c)] *)
Definition py_float (c : cell) : result float :=
  match c with
  | CStr s =>
      match float_of_str s with
      | Some x => Ok x
      | None => Raise ValueError
      end
  | _ => Raise TypeError
  end.

Definition row_rating (r : dict cell) : result float :=
  c <- row_getitem r "rating" ; py_float c.

(** [row['would_try'].lower() in ['yes', 'maybe']] *)
Definition row_would_try (r : dict cell) : result bool :=
  c <- row_getitem r "would_try" ;
  match c with
  | CStr s =>
      let l := lower s in
      Ok (String.eqb l "yes" || String.eqb l "maybe")
  | _ => Raise AttributeError
  end.

(** The loop that fills [technique_ratings]. *)
Fixpoint group_ratings (rows : list (dict cell)) (acc : dict (list float))
  : result (dict (list float)) :=
  match rows with
  | [] => Ok acc
  | r :: rest =>
      c <- row_getitem r "technique_used" ;
      tech <- dict_key c ;
      let acc1 :=
        match dict_get tech acc with
        | None => dict_set tech [] acc
        | Some _ => acc
        end in
      x <- row_rating r ;
      let ratings :=
        match dict_get tech acc1 with
        | Some l => l
        | None => []
        end in
      group_ratings rest (dict_set tech (ratings ++ [x])%list acc1)
  end.

(** The loop that fills [component_count]. *)
Fixpoint count_components (rows : list (dict cell)) (acc : dict Z)
  : result (dict Z) :=
  match rows with
  | [] => Ok acc
  | r :: rest =>
      c <- row_getitem r "target_component" ;
      comp <- dict_key c ;
      let seen :=
        match dict_get comp acc with
        | Some n => n
        | None => 0%Z
        end in
      count_components rest (dict_set comp (seen + 1)%Z acc)
  end.

Record Statistics : Type := {
  total_responses : Z;
  average_rating : float;
  would_try_percent : float;
  technique_performance : dict float;
  component_distribution : dict Z
}.

(** The body of the [try] in [get_statistics]; [Ok None] is its
    [return None]. *)
Definition statistics_body (env : Env) (f : file)
  : result (option Statistics) :=
  _ <- py_open env ;
  let rows := read_rows f in
  if (List.length rows =? 0)%nat then Ok None
  else
    let total_responses := Z.of_nat (List.length rows) in
    ratings <- mapM row_rating rows ;
    let total_rating := py_sum ratings in
    let avg_rating := PrimFloat.div total_rating (float_of_Z total_responses) in
    tries <- mapM row_would_try rows ;
    let would_try_count := Z.of_nat (List.length (filter (fun b => b) tries)) in
    let would_try_percent :=
      PrimFloat.mul (int_truediv would_try_count total_responses)
                    (float_of_Z 100) in
    technique_ratings <- group_ratings rows [] ;
    let technique_avg :=
      map (fun kv =>
             (fst kv,
              PrimFloat.div (py_sum (snd kv))
                            (float_of_Z (Z.of_nat (List.length (snd kv))))))
          technique_ratings in
    component_count <- count_components rows [] ;
    Ok (Some {| total_responses := total_responses;
                average_rating := avg_rating;
                would_try_percent := would_try_percent;
                technique_performance := technique_avg;
                component_distribution := component_count |}).

(** [get_statistics]: [None] is Python's [None]. *)
Definition get_statistics (env : Env) (fs : option file) : option Statistics :=
  match fs with
  | None => None
  | Some f =>
      match statistics_body env f with
      | Ok r => r
      | Raise _ => None
      end
  end.

End Statistics.

End FeedbackManager.

(* ================================================================== *)
(** * main_agent.py: [_load_techniques] and [run] *)
(* ================================================================== *)

Module AgentRun.
Import PyStr PyVal MainAgent.

Definition is_lower (c : ascii) : bool :=
  let n := nat_of_ascii c in (97 <=? n)%nat && (n <=? 122)%nat.

Definition upper_char (c : ascii) : ascii :=
  if is_lower c then ascii_of_nat (nat_of_ascii c - 32) else c.

(** [s.upper()] *)
Fixpoint upper (s : string) : string :=
  match s with
  | EmptyString => EmptyString
  | String c s' => String (upper_char c) (upper s')
  end.

(** [_load_techniques].  The argument is what opening and decoding
    [techniques_library.json] comes to: [None] when [open] raises
    [FileNotFoundError], otherwise what [json.load] returns or what
    [open] or [json.load] raises.  Only the missing file is caught. *)
Definition _load_techniques (library : option (result json)) : result json :=
  match library with
  | None => Ok (JList [])
  | Some outcome => outcome
  end.

(** The lines [run] prints, one constructor per [print], with the value
    the line interpolates. *)
Inductive progress : Type :=
| Analyzing
| Identified (component_upper : string)
| Selecting
| NoTechniques
| Selected (name : string)
| Creating.

(** What [run] does to the outside world: what the methods it calls do,
    and its own lines. *)
Inductive run_event : Type :=
| Method (ev : event)
| Line (p : progress).

Section Run.

Variable Service : Type.
Variable generate_content : string -> Service -> result response * Service.
Variable py_repr : json -> string.

(** Whether a float literal of the catalog file denotes a non-zero
    number (the truth value of the loaded [float]). *)
Variable float_nonzero : string -> bool.

(** [bool(v)] *)
Definition truthy (v : json) : bool :=
  match v with
  | JNull => false
  | JBool b => b
  | JInt n => negb (n =? 0)%Z
  | JFloat literal => float_nonzero literal
  | JStr s => negb (String.eqb s EmptyString)
  | JList [] => false
  | JList (_ :: _) => true
  | JObj [] => false
  | JObj (_ :: _) => true
  end.

Record RunWorld : Type := { client : Service; output : list run_event }.

Definition R (A : Type) : Type := RunWorld -> result A * RunWorld.

Definition rret {A} (a : A) : R A := fun rw => (Ok a, rw).

Definition rseq {A B} (m : R A) (k : A -> R B) : R B :=
  fun rw =>
    match m rw with
    | (Ok a, rw') => k a rw'
    | (Raise e, rw') => (Raise e, rw')
    end.

Definition rlift {A} (r : result A) : R A := fun rw => (r, rw).

Definition say (p : progress) : R unit :=
  fun rw => (Ok tt, {| client := client rw; output := output rw ++ [Line p] |}).

(** A method call: the method runs on the client as it stands, and what
    it did is appended to the output. *)
Definition method {A} (m : M Service A) : R A :=
  fun rw =>
    let (r, w') := m {| service := client rw; trace := [] |} in
    (r, {| client := service w';
           output := output rw ++ map Method (trace w') |}).

Notation "x <== m ;; k" := (rseq m (fun x => k))
  (at level 61, m at next level, right associativity).
Notation "m ;;> k" := (rseq m (fun _ => k))
  (at level 61, right associativity).

(** The part of [run] after the selection: the emptiness test and the
    generation.  The returned [JNull] is [None]. *)
Definition deliver (user_goal user_barrier : string) (technique : json)
  : R json :=
  if negb (truthy technique) then
    say NoTechniques ;;> rret JNull
  else
    name <== rlift (getitem technique "name") ;;
    say (Selected (format_value py_repr name)) ;;>
    say Creating ;;>
    intervention <== method (generate_intervention generate_content py_repr
                               user_goal technique user_barrier) ;;
    rret intervention.

(** [run] *)
Definition run (techniques : list json) (user_goal user_barrier : string)
  : R json :=
  say Analyzing ;;>
  target_component <== method (analyze_barrier generate_content user_barrier) ;;
  say (Identified (upper target_component)) ;;>
  say Selecting ;;>
  technique <== method (select_technique techniques user_barrier
                                         target_component) ;;
  deliver user_goal user_barrier technique.

End Run.

Arguments client {Service} _.
Arguments output {Service} _.
Arguments Build_RunWorld {Service} _ _.
Arguments deliver {Service} _ _ _ _ _ _ _.
Arguments run {Service} _ _ _ _ _ _ _.

End AgentRun.

(* ================================================================== *)
(** * The properties, in the specification's words *)
(* ================================================================== *)

Module PyStrSpec.
Import PyStr.

(** [needle] occurs in [s] as a substring. *)
Definition occurs_in (needle s : string) : Prop :=
  exists pre post, s = pre ++ needle ++ post.

(** [needle] occurs in [s] up to the case of the letters: some substring
    of [s] and [needle] have the same lower-case form. *)
Definition occurs_ci (needle s : string) : Prop :=
  exists pre mid post, s = pre ++ mid ++ post /\ lower mid = lower needle.

(** The first, the last character of [m] is not a blank (vacuously for
    the empty string). *)
Definition starts_nonspace (m : string) : bool :=
  match m with
  | EmptyString => true
  | String c _ => negb (is_space c)
  end.

Fixpoint ends_nonspace (m : string) : bool :=
  match m with
  | EmptyString => true
  | String c EmptyString => negb (is_space c)
  | String _ m' => ends_nonspace m'
  end.

End PyStrSpec.

Module AgentSpec.
Import PyStr PyVal PyStrSpec.

(** The technique's category is [c]. *)
Definition has_component (c : string) (t : json) : Prop :=
  getitem t "target_component" = Ok (JStr c).

(** One of the technique's keywords occurs in the lower-cased barrier
    text. *)
Definition keyword_hit (barrier_text : string) (t : json) : Prop :=
  exists kws k,
    getitem t "barrier_keywords" = Ok (JList kws) /\
    In (JStr k) kws /\ occurs_in k (lower barrier_text).

(** A technique record as the data model has it: a category that is a
    string and a list of keyword strings. *)
Definition well_formed (t : json) : Prop :=
  exists c kws,
    getitem t "target_component" = Ok (JStr c) /\
    getitem t "barrier_keywords" = Ok (JList (map JStr kws)).

(** [t] is the first entry of the catalog, in stored order, with [P]. *)
Definition first_such (P : json -> Prop) (catalog : list json) (t : json)
  : Prop :=
  exists before after,
    catalog = (before ++ t :: after)%list /\ P t /\
    forall x, In x before -> ~ P x.

Definition none_such (P : json -> Prop) (catalog : list json) : Prop :=
  forall x, In x catalog -> ~ P x.

(** The three-pass rule of the specification. *)
Definition three_pass_rule (barrier_text category : string)
    (catalog : list json) (t : json) : Prop :=
  let by_keyword x := has_component category x /\ keyword_hit barrier_text x in
  let by_component x := has_component category x in
  first_such by_keyword catalog t
  \/ (none_such by_keyword catalog /\ first_such by_component catalog t)
  \/ (none_such by_component catalog /\ hd_error catalog = Some t).

(** Executable counterparts, used to run the rule. *)
Definition component_b (c : string) (t : json) : bool :=
  match getitem t "target_component" with
  | Ok v => eq_str v c
  | Raise _ => false
  end.

Definition keyword_b (barrier_lower : string) (t : json) : bool :=
  match getitem t "barrier_keywords" with
  | Ok (JList kws) =>
      existsb (fun k => match k with
                        | JStr k => contains k barrier_lower
                        | _ => false
                        end) kws
  | _ => false
  end.

Definition three_pass (barrier_text category : string) (catalog : list json)
  : json :=
  match find (fun t => component_b category t &&
                       keyword_b (lower barrier_text) t) catalog with
  | Some t => t
  | None =>
      match find (component_b category) catalog with
      | Some t => t
      | None => first_or_none catalog
      end
  end.

(** The text under [intervention_text] of what a call returned. *)
Definition intervention_text_of (r : result json) : result json :=
  rbind r (fun d => getitem d "intervention_text").

Section WithService.
Context {Service : Type}.
Variable generate_content : string -> Service -> result MainAgent.response * Service.
Variable py_repr : json -> string.

(** The generation call on [prompt] in state [s] fails with [e], leaving
    the client in state [s']: the call raises, or it returns a response
    whose text cannot be read. *)
Definition generation_fails (prompt : string) (s : Service) (e : exn)
    (s' : Service) : Prop :=
  generate_content prompt s = (Raise e, s') \/
  exists resp,
    generate_content prompt s = (Ok resp, s') /\ MainAgent.text resp = Raise e.

(** The call answers [r] on [prompt]. *)
Definition generation_answers (prompt : string) (s : Service) (r : string)
    (s' : Service) : Prop :=
  generate_content prompt s = (Ok {| MainAgent.text := Ok r |}, s').

(** An invocation of [generate_intervention] takes the [except] branch. *)
Definition takes_fallback (user_goal : string) (technique : json)
    (barrier_text : string) (w : MainAgent.World Service) : Prop :=
  exists e w',
    MainAgent.generate_body generate_content py_repr
      user_goal technique barrier_text w = (Raise e, w').

End WithService.

End AgentSpec.

Module FeedbackSpec.
Import PyStr FeedbackManager.

(** The arguments of one call of [save_feedback]. *)
Record Feedback : Type := {
  user_goal : string;
  user_barrier : string;
  target_component : string;
  technique_name : string;
  theory : string;
  rating : Z;
  would_try : string;
  feedback_text : string
}.

(** The record [save_feedback] writes for an entry: the clock reading
    and the eight arguments. *)
Definition row_of (e : string * Feedback) : row :=
  [ fst e; user_goal (snd e); user_barrier (snd e); target_component (snd e);
    technique_name (snd e); theory (snd e); str_of_int (rating (snd e));
    would_try (snd e); feedback_text (snd e) ].

(** One successful call at clock reading [t]. *)
Definition record (t : string) (fb : Feedback) (fs : option file)
  : bool * option file :=
  save_feedback {| now := t; denied := false |} fs
    (user_goal fb) (user_barrier fb) (target_component fb)
    (technique_name fb) (theory fb) (rating fb) (would_try fb)
    (feedback_text fb).

(** The calls of [entries], in order, each with its clock reading. *)
Definition record_all (entries : list (string * Feedback)) (fs : option file)
  : option file :=
  fold_left (fun fs e => snd (record (fst e) (snd e) fs)) entries fs.




(** The rating field of a row is there but [float] rejects it. *)
Definition rating_not_numeric (float_other : string -> option float)
    (r : dict cell) : Prop :=
  exists s,
    dict_get (Some "rating") r = Some (CStr s) /\
    float_of_str float_other s = None.

End FeedbackSpec.

Module AgentRunSpec.
Import PyStr PyVal PyStrSpec MainAgent AgentSpec AgentRun.

(** The prompts a method submitted to the model, in order. *)
Fixpoint model_calls (t : list event) : list string :=
  match t with
  | [] => []
  | Generate prompt :: t' => prompt :: model_calls t'
  | PrintError _ :: t' => model_calls t'
  end.

(** The prompts submitted to the model during a run, in order. *)
Fixpoint prompts (out : list run_event) : list string :=
  match out with
  | [] => []
  | Method (Generate prompt) :: out' => prompt :: prompts out'
  | _ :: out' => prompts out'
  end.

(** A technique [generate_intervention] can work with: it has the six
    keys the method reads, and its template is a string. *)
Definition usable (t : json) : Prop :=
  exists template name theory duration evidence component,
    getitem t "prompt_template" = Ok (JStr template) /\
    getitem t "name" = Ok name /\
    getitem t "theory" = Ok theory /\
    getitem t "duration_minutes" = Ok duration /\
    getitem t "evidence_base" = Ok evidence /\
    getitem t "target_component" = Ok component.

(** The dictionary [generate_intervention] returns for [t] with the text
    [txt]: the text and the five echoed fields. *)
Definition echoes (d t : json) (txt : string) : Prop :=
  getitem d "intervention_text" = Ok (JStr txt) /\
  getitem d "technique_name" = getitem t "name" /\
  getitem d "theory" = getitem t "theory" /\
  getitem d "duration_minutes" = getitem t "duration_minutes" /\
  getitem d "evidence" = getitem t "evidence_base" /\
  getitem d "target_component" = getitem t "target_component".

(** The text of the [except] branch. *)
Definition fallback_text (user_goal template : string) : string :=
  "Let's work on " ++ user_goal ++ ". " ++ replace "[GOAL]" user_goal template.

(** The client fails on every prompt, in every state. *)
Definition service_down {Service : Type}
    (generate_content : string -> Service -> result response * Service)
  : Prop :=
  forall prompt s,
    exists e,
      generation_fails generate_content prompt s e
                       (snd (generate_content prompt s)).

(** Some character of [s] is an upper-case letter. *)
Fixpoint has_upper (s : string) : bool :=
  match s with
  | EmptyString => false
  | String c s' => is_upper c || has_upper s'
  end.

(** Every keyword of the record has an upper-case letter. *)
Definition keywords_capitalised (t : json) : Prop :=
  exists kws,
    getitem t "barrier_keywords" = Ok (JList (map JStr kws)) /\
    Forall (fun k => has_upper k = true) kws.

End AgentRunSpec.

Module StatisticsSpec.
Import PyStr FeedbackManager FeedbackSpec.

(** A row [get_statistics] can digest: a rating that [float] accepts, a
    trial-intent that is a string, and a technique and a category that
    are there (a string, or the [None] of a missing field). *)
Definition row_ok (float_other : string -> option float) (r : dict cell)
  : Prop :=
  (exists s x, dict_get (Some "rating") r = Some (CStr s) /\
               float_of_str float_other s = Some x) /\
  (exists s, dict_get (Some "would_try") r = Some (CStr s)) /\
  (exists c, dict_get (Some "technique_used") r = Some c /\
             forall l, c <> CRest l) /\
  (exists c, dict_get (Some "target_component") r = Some c /\
             forall l, c <> CRest l).

(** The key a row contributes to a dictionary: its field, which must be
    hashable. *)
Definition keyed (field : string) (r : dict cell) : result (option string) :=
  rbind (row_getitem r field) dict_key.

(** The sum of the counts of a distribution. *)
Fixpoint sum_counts (d : dict Z) : Z :=
  match d with
  | [] => 0%Z
  | (_, n) :: d' => (n + sum_counts d')%Z
  end.






End StatisticsSpec.

(* ================================================================== *)
(** * Concrete inputs *)
(* ================================================================== *)

Module Examples.
Import PyStr PyVal MainAgent FeedbackManager FeedbackSpec.

(** The technique of the specification's scenario; the fields the
    scenario leaves open are parameters. *)
Definition scenario_technique (theory duration evidence : json) : json :=
  JObj [ ("name", JStr "A");
         ("target_component", JStr "motivation");
         ("barrier_keywords", JList [JStr "tired"; JStr "bored"]);
         ("prompt_template", JStr "Try pairing [GOAL] with something fun.");
         ("theory", theory);
         ("duration_minutes", duration);
         ("evidence_base", evidence) ].

Definition technique_A : json :=
  scenario_technique (JStr "Behavioral Economics") (JInt 5)
                     (JStr "Milkman et al. 2014").

Definition technique_how : json :=
  JObj [ ("name", JStr "Implementation Intentions");
         ("target_component", JStr "capability");
         ("barrier_keywords", JList [JStr "how"; JStr "start"]);
         ("prompt_template", JStr "Plan when and where you will [GOAL].");
         ("theory", JStr "Action Planning");
         ("duration_minutes", JInt 3);
         ("evidence_base", JStr "Gollwitzer 1999") ].

(** A record that lost its [target_component] key. *)
Definition technique_broken : json :=
  JObj [ ("name", JStr "Habit Stacking");
         ("barrier_keywords", JList [JStr "forget"]) ].

Definition broken_catalog : list json :=
  [technique_how; technique_broken; technique_A].

(** A client whose every call raises; its state counts the calls. *)
Definition failing_service (prompt : string) (calls : nat)
  : result response * nat :=
  (Raise (ServiceError "quota exceeded"), S calls).

(** A client that always answers [reply]. *)
Definition canned_service (reply : string) (prompt : string) (calls : nat)
  : result response * nat :=
  (Ok {| text := Ok reply |}, S calls).

Definition plain_repr (v : json) : string := "?".

Definition fresh_world : World nat := {| service := 0; trace := [] |}.

Definition example_catalog : list json := [technique_how; technique_A].

Definition fb_yes : Feedback :=
  {| user_goal := "exercise more"; user_barrier := "too tired";
     target_component := "motivation"; technique_name := "Temptation Bundling";
     theory := "Behavioral Economics"; rating := 4; would_try := "Yes";
     feedback_text := "This sounds fun!" |}.

Definition fb_no : Feedback :=
  {| user_goal := "read daily"; user_barrier := "no time";
     target_component := "opportunity"; technique_name := "Habit Stacking";
     theory := "Habit Formation"; rating := 2; would_try := "No";
     feedback_text := EmptyString |}.

Definition calm : Env := {| now := "2024-05-01 09:30:00"; denied := false |}.

Definition no_other_float (s : string) : option float := None.

Definition bad_log : file :=
  [ header;
    row_of ("2024-05-01 09:30:00", fb_yes);
    [ "2024-05-01 09:31:00"; "read daily"; "no time"; "opportunity";
      "Habit Stacking"; "Habit Formation"; "five"; "No"; EmptyString ];
    row_of ("2024-05-01 09:32:00", fb_no) ].

End Examples.

Module MoreExamples.
Import PyStr PyVal MainAgent FeedbackManager FeedbackSpec Examples.
Import AgentRun.

Definition fresh_run : RunWorld nat := {| client := 0; output := [] |}.

(** A reading of float literals for the runs below (their catalogs hold
    records, not numbers): every literal but "0.0" is non-zero. *)
Definition zero_literal (literal : string) : bool :=
  negb (String.eqb literal "0.0").

(** Records that lost their [name]. *)
Definition nameless_catalog : list json :=
  [ JObj [ ("target_component", JStr "motivation");
           ("barrier_keywords", JList [JStr "tired"]);
           ("prompt_template", JStr "Reward yourself after you [GOAL].") ] ].

(** A record whose keywords were typed with capitals. *)
Definition technique_capitals : json :=
  JObj [ ("name", JStr "Temptation Bundling");
         ("target_component", JStr "motivation");
         ("barrier_keywords", JList [JStr "Tired"; JStr "BORED"]);
         ("prompt_template", JStr "Pair it with something you enjoy.");
         ("theory", JStr "Behavioral Economics");
         ("duration_minutes", JInt 5);
         ("evidence_base", JStr "Milkman et al. 2014") ].

Definition good_log : file :=
  [ header;
    row_of ("2024-05-01 09:30:00", fb_yes);
    row_of ("2024-05-01 09:32:00", fb_no) ].

Definition good_stats : Statistics :=
  {| total_responses := 2;
     average_rating := 3%float;
     would_try_percent := 50%float;
     technique_performance :=
       [ (Some "Temptation Bundling", 4%float);
         (Some "Habit Stacking", 2%float) ];
     component_distribution :=
       [ (Some "motivation", 1%Z); (Some "opportunity", 1%Z) ] |}.

(** A log whose second record was cut after the theory. *)
Definition cut_log : file :=
  [ header;
    row_of ("2024-05-01 09:30:00", fb_yes);
    [ "2024-05-01 09:31:00"; "read daily"; "no time"; "opportunity";
      "Habit Stacking"; "Habit Formation" ] ].


End MoreExamples.

(* ================================================================== *)
(** * Facts about the string operations *)
(* ================================================================== *)

Module PyStrFacts.
Import PyStr PyStrSpec.

Example lower_mixed : lower "I'm too TIRED" = "i'm too tired".
Proof. reflexivity. Qed.

Example strip_answer :
  strip (" Capability" ++ nl) = "Capability".
Proof. reflexivity. Qed.

Example contains_keyword : contains "tired" "i'm too tired" = true.
Proof. reflexivity. Qed.

Example contains_absent : contains "bored" "i'm too tired" = false.
Proof. reflexivity. Qed.

Example replace_goal :
  replace "[GOAL]" "exercise more" "Try pairing [GOAL] with something fun."
  = "Try pairing exercise more with something fun.".
Proof. reflexivity. Qed.

Example replace_no_overlap : replace "aa" "b" "aaaaa" = "bba".
Proof. reflexivity. Qed.

Lemma app_empty_r (s : string) : s ++ EmptyString = s.
Proof. induction s as [|c s IH]; simpl; [reflexivity | now rewrite IH]. Qed.

Lemma app_assoc_str (a b c : string) : (a ++ b) ++ c = a ++ b ++ c.
Proof. induction a as [|x a IH]; simpl; [reflexivity | now rewrite IH]. Qed.

Lemma prefix_app (n post : string) : prefix n (n ++ post) = true.
Proof.
  induction n as [|c n IH]; simpl.
  - now destruct post.
  - destruct (ascii_dec c c) as [_|ne]; [exact IH | now elim ne].
Qed.

Lemma prefix_split (n h : string) :
  prefix n h = true -> exists post, h = n ++ post.
Proof.
  revert h. induction n as [|c n IH]; intros h H.
  - exists h. reflexivity.
  - destruct h as [|d h]; simpl in H; [discriminate|].
    destruct (ascii_dec c d) as [->|]; [|discriminate].
    destruct (IH h H) as [post ->]. now exists post.
Qed.

Lemma contains_iff (n h : string) : contains n h = true <-> occurs_in n h.
Proof.
  split.
  - induction h as [|c h IH]; cbn [contains]; intros H.
    + rewrite orb_false_r in H. destruct (prefix_split _ _ H) as [post E].
      exists EmptyString, post. exact E.
    + apply orb_true_iff in H. destruct H as [H|H].
      * destruct (prefix_split _ _ H) as [post E].
        exists EmptyString, post. exact E.
      * destruct (IH H) as (pre & post & ->).
        now exists (String c pre), post.
  - intros (pre & post & ->). induction pre as [|c pre IH]; cbn [append contains].
    + destruct (n ++ post) eqn:E; cbn [contains]; rewrite <- E, prefix_app; reflexivity.
    + rewrite IH. apply orb_true_r.
Qed.

Lemma lower_app (a b : string) : lower (a ++ b) = lower a ++ lower b.
Proof. induction a as [|c a IH]; simpl; [reflexivity | now rewrite IH]. Qed.

Lemma lower_split (s x y : string) :
  lower s = x ++ y -> exists a b, s = a ++ b /\ lower a = x /\ lower b = y.
Proof.
  revert s. induction x as [|c x IH]; intros s H.
  - exists EmptyString, s. now repeat split.
  - destruct s as [|d s]; simpl in H; [discriminate|].
    injection H as Hc Hs. destruct (IH s Hs) as (a & b & -> & Ha & Hb).
    exists (String d a), b. simpl. now rewrite Hc, Ha.
Qed.

Lemma contains_lower_iff (n s : string) :
  contains n (lower s) = true <->
  exists pre mid post, s = pre ++ mid ++ post /\ lower mid = n.
Proof.
  rewrite contains_iff. split.
  - intros (pre' & post' & H).
    destruct (lower_split _ _ _ H) as (pre & r & -> & _ & Hr).
    destruct (lower_split _ _ _ Hr) as (mid & post & -> & Hm & _).
    now exists pre, mid, post.
  - intros (pre & mid & post & -> & <-).
    exists (lower pre), (lower post). now rewrite !lower_app.
Qed.

Lemma is_space_lower_char (c : ascii) : is_space (lower_char c) = is_space c.
Proof. destruct c as [[] [] [] [] [] [] [] []]; reflexivity. Qed.

Lemma starts_nonspace_lower (m : string) :
  starts_nonspace (lower m) = starts_nonspace m.
Proof. destruct m; simpl; [reflexivity | now rewrite is_space_lower_char]. Qed.

Lemma ends_nonspace_lower (m : string) :
  ends_nonspace (lower m) = ends_nonspace m.
Proof.
  induction m as [|c m IH]; [reflexivity|].
  destruct m as [|d m]; simpl in *.
  - now rewrite is_space_lower_char.
  - exact IH.
Qed.

Lemma ends_nonspace_tail (c : ascii) (m : string) :
  ends_nonspace (String c m) = true -> ends_nonspace m = true.
Proof. destruct m; simpl; auto. Qed.

Lemma prefix_nonspace_head (n : string) (c : ascii) (h : string) :
  n <> EmptyString -> starts_nonspace n = true -> is_space c = true ->
  prefix n (String c h) = false.
Proof.
  destruct n as [|d n]; [congruence|]. simpl. intros _ Hd Hc.
  destruct (ascii_dec d c) as [->|]; [|reflexivity].
  rewrite Hc in Hd. discriminate.
Qed.

Lemma contains_empty (h : string) : contains EmptyString h = true.
Proof. destruct h; reflexivity. Qed.

Lemma contains_lstrip (n s : string) :
  starts_nonspace n = true -> contains n (lstrip s) = contains n s.
Proof.
  intros Hn. destruct n as [|d n]; [now rewrite !contains_empty|].
  induction s as [|c s IH]; [reflexivity|].
  cbn [lstrip]. destruct (is_space c) eqn:Hc; [|reflexivity].
  rewrite IH. cbn [contains].
  rewrite prefix_nonspace_head; [reflexivity | discriminate | exact Hn | exact Hc].
Qed.

Lemma rstrip_cons (c : ascii) (s : string) :
  rstrip (String c s) =
  match rstrip s with
  | EmptyString => if is_space c then EmptyString else String c EmptyString
  | _ => String c (rstrip s)
  end.
Proof. simpl. destruct (rstrip s); reflexivity. Qed.

Lemma prefix_rstrip (m s : string) :
  ends_nonspace m = true -> prefix m (rstrip s) = prefix m s.
Proof.
  revert m. induction s as [|c s IH]; intros m Hm; [reflexivity|].
  destruct m as [|d m]; [now destruct (rstrip (String c s))|].
  pose proof (IH m (ends_nonspace_tail _ _ Hm)) as IHm.
  rewrite rstrip_cons. destruct (rstrip s) as [|r0 r] eqn:Er.
  - destruct (is_space c) eqn:Hc; simpl.
    + destruct (ascii_dec d c) as [->|]; [|reflexivity].
      rewrite <- IHm. destruct m as [|e m]; [|reflexivity].
      simpl in Hm. rewrite Hc in Hm. discriminate.
    + destruct (ascii_dec d c); [exact IHm | reflexivity].
  - simpl. destruct (ascii_dec d c); [exact IHm | reflexivity].
Qed.

Lemma contains_rstrip (n s : string) :
  ends_nonspace n = true -> contains n (rstrip s) = contains n s.
Proof.
  intros Hn. induction s as [|c s IH]; [reflexivity|].
  cbn [contains]. rewrite <- IH, <- (prefix_rstrip n (String c s) Hn).
  rewrite rstrip_cons. destruct (rstrip s) as [|r0 r] eqn:Er.
  - destruct (is_space c); cbn [contains].
    + now rewrite orb_false_r, orb_diag.
    + reflexivity.
  - reflexivity.
Qed.

Lemma contains_strip (n s : string) :
  starts_nonspace n = true -> ends_nonspace n = true ->
  contains n (strip s) = contains n s.
Proof.
  intros Hs He. unfold strip.
  now rewrite contains_rstrip, contains_lstrip.
Qed.

(** Containment in the stripped, lower-cased text is containment up to
    case in the text itself, for a lower-case needle with no blank at
    either end. *)
Lemma contains_lower_strip (n s : string) :
  lower n = n -> starts_nonspace n = true -> ends_nonspace n = true ->
  contains n (lower (strip s)) = true <-> occurs_ci n s.
Proof.
  intros Hl Hs He. rewrite contains_lower_iff. unfold occurs_ci. rewrite Hl.
  assert (T : forall mid, lower mid = n ->
            contains mid (strip s) = contains mid s).
  { intros mid Hm. apply contains_strip.
    - now rewrite <- starts_nonspace_lower, Hm.
    - now rewrite <- ends_nonspace_lower, Hm. }
  split; intros (pre & mid & post & E & Hm).
  - assert (C : contains mid (strip s) = true)
      by (apply contains_iff; now exists pre, post).
    rewrite (T mid Hm) in C. apply contains_iff in C.
    destruct C as (pre' & post' & E'). now exists pre', mid, post'.
  - assert (C : contains mid s = true)
      by (apply contains_iff; now exists pre, post).
    rewrite <- (T mid Hm) in C. apply contains_iff in C.
    destruct C as (pre' & post' & E'). now exists pre', mid, post'.
Qed.
End PyStrFacts.

(* ================================================================== *)
(** * Facts about the agent *)
(* ================================================================== *)

Module AgentFacts.
Import PyStr PyVal PyStrSpec PyStrFacts MainAgent AgentSpec Examples.
Local Open Scope result_scope.

(** ** Runs on concrete inputs *)

Example select_by_keyword :
  select_technique example_catalog "I'm too TIRED" "motivation" fresh_world
  = (Ok technique_A, fresh_world).
Proof. reflexivity. Qed.

Example select_by_component :
  select_technique example_catalog "no idea" "capability" fresh_world
  = (Ok technique_how, fresh_world).
Proof. reflexivity. Qed.

Example select_last_resort :
  select_technique example_catalog "no time" "opportunity" fresh_world
  = (Ok technique_how, fresh_world).
Proof. reflexivity. Qed.

Example select_empty_catalog :
  select_technique [] "no time" "opportunity" fresh_world
  = (Ok JNull, fresh_world).
Proof. reflexivity. Qed.

Example select_broken_record :
  select_technique broken_catalog "I'm too tired" "motivation" fresh_world
  = (Ok technique_how,
     {| service := 0; trace := [PrintError (KeyError "target_component")] |}).
Proof. reflexivity. Qed.

Example analyze_capability :
  fst (analyze_barrier (canned_service (" Capability" ++ nl))
         "I don't know how to start" fresh_world) = Ok "capability".
Proof. reflexivity. Qed.

Example analyze_opportunity :
  fst (analyze_barrier (canned_service "OPPORTUNITY.")
         "no time" fresh_world) = Ok "opportunity".
Proof. reflexivity. Qed.

Example analyze_unrecognised :
  fst (analyze_barrier (canned_service "I cannot tell.")
         "no time" fresh_world) = Ok "motivation".
Proof. reflexivity. Qed.

Example generate_primary_path :
  intervention_text_of
    (fst (generate_intervention (canned_service ("  Pair it with a podcast. " ++ nl))
            plain_repr "exercise more" technique_A "I'm too tired" fresh_world))
  = Ok (JStr "Pair it with a podcast.").
Proof. reflexivity. Qed.

(** ** The selector on well-formed catalogs *)

Lemma component_b_iff (c : string) (t : json) :
  component_b c t = true <-> has_component c t.
Proof.
  unfold component_b, has_component.
  destruct (getitem t "target_component") as [v|e].
  - destruct v; simpl; try (split; [discriminate | intros H; discriminate H]).
    rewrite String.eqb_eq. split; [now intros -> | now intros [= ->]].
  - split; discriminate.
Qed.

Lemma keyword_b_iff (b : string) (t : json) :
  keyword_b (lower b) t = true <-> keyword_hit b t.
Proof.
  unfold keyword_b, keyword_hit. split.
  - destruct (getitem t "barrier_keywords") as [v|e]; [|discriminate].
    destruct v as [| | | | |kws|]; try discriminate.
    intros H. apply existsb_exists in H. destruct H as (k & Hin & Hk).
    destruct k as [| | | |k| |]; try discriminate.
    exists kws, k. repeat split; auto. now apply contains_iff.
  - intros (kws & k & -> & Hin & Hk). apply existsb_exists.
    exists (JStr k). split; [exact Hin | now apply contains_iff].
Qed.

Lemma find_first_such (p : json -> bool) (P : json -> Prop) l t :
  (forall x, p x = true <-> P x) ->
  find p l = Some t -> first_such P l t.
Proof.
  intros R. induction l as [|x l IH]; [discriminate|]. simpl.
  destruct (p x) eqn:Hx.
  - intros [= ->]. exists [], l. repeat split.
    + now apply R.
    + intros ? [].
  - intros H. destruct (IH H) as (before & after & -> & Pt & Hb).
    exists (x :: before), after. repeat split; auto.
    intros y [<-|Hy]; [|now apply Hb].
    rewrite <- R, Hx. discriminate.
Qed.

Lemma find_none_such (p : json -> bool) (P : json -> Prop) l :
  (forall x, p x = true <-> P x) ->
  find p l = None -> none_such P l.
Proof.
  intros R H x Hin Px. apply R in Px.
  now rewrite (find_none _ _ H x Hin) in Px.
Qed.

Lemma keyword_loop_strings (kws : list string) (bl : string) :
  keyword_loop (map JStr kws) bl =
  Ok (existsb (fun k => match k with
                        | JStr k => contains k bl
                        | _ => false
                        end) (map JStr kws)).
Proof.
  induction kws as [|k kws IH]; [reflexivity|]. simpl.
  destruct (contains k bl); [reflexivity | exact IH].
Qed.

Lemma keyword_pass_well_formed l c bl :
  Forall well_formed l ->
  keyword_pass l c bl =
  Ok (find (fun t => component_b c t && keyword_b bl t) l).
Proof.
  induction 1 as [|t l (tc & kws & Hc & Hk) _ IH]; [reflexivity|].
  cbn [keyword_pass find]. unfold component_b, keyword_b.
  rewrite Hc, Hk. cbn [rbind iter]. rewrite keyword_loop_strings.
  cbn [rbind]. destruct (eq_str (JStr tc) c); cbn [andb]; [|exact IH].
  destruct (existsb _ _); [reflexivity | exact IH].
Qed.

Lemma component_pass_well_formed l c :
  Forall well_formed l ->
  component_pass l c = Ok (find (component_b c) l).
Proof.
  induction 1 as [|t l (tc & kws & Hc & Hk) _ IH]; [reflexivity|].
  cbn [component_pass find]. unfold component_b.
  rewrite Hc. cbn [rbind]. destruct (eq_str (JStr tc) c); [reflexivity | exact IH].
Qed.

Lemma select_body_well_formed l b c :
  Forall well_formed l -> select_body l b c = Ok (three_pass b c l).
Proof.
  intros W. unfold select_body, three_pass.
  rewrite (keyword_pass_well_formed _ _ _ W). cbn [rbind].
  destruct (find _ l); [reflexivity|].
  rewrite (component_pass_well_formed _ _ W). cbn [rbind].
  now destruct (find _ l).
Qed.

(** The executable rule meets the rule as the specification words it. *)
Lemma three_pass_meets_rule b c l :
  l <> [] -> three_pass_rule b c l (three_pass b c l).
Proof.
  intros Hne. unfold three_pass, three_pass_rule.
  assert (R1 : forall x, component_b c x && keyword_b (lower b) x = true <->
                         has_component c x /\ keyword_hit b x).
  { intros x. now rewrite andb_true_iff, component_b_iff, keyword_b_iff. }
  destruct (find (fun t => _ && _) l) as [t|] eqn:F1.
  - left. exact (find_first_such _ _ _ _ R1 F1).
  - right. pose proof (find_none_such _ _ _ R1 F1) as N1.
    destruct (find (component_b c) l) as [t|] eqn:F2.
    + left. split; [exact N1|].
      exact (find_first_such _ _ _ _ (component_b_iff c) F2).
    + right. split.
      * exact (find_none_such _ _ _ (component_b_iff c) F2).
      * destruct l; [congruence | reflexivity].
Qed.

(** ** The selector on arbitrary catalogs *)

Lemma keyword_pass_in l c bl t :
  keyword_pass l c bl = Ok (Some t) -> In t l.
Proof.
  induction l as [|x l IH]; [discriminate|]. cbn [keyword_pass].
  destruct (getitem x "target_component") as [tc|]; [|discriminate].
  cbn [rbind]. destruct (eq_str tc c); [|intros H; right; auto].
  destruct (getitem x "barrier_keywords") as [kws|]; [|discriminate].
  cbn [rbind]. destruct (iter kws) as [ks|]; [|discriminate].
  cbn [rbind]. destruct (keyword_loop ks bl) as [[|]|]; cbn [rbind].
  - intros [= ->]. now left.
  - intros H; right; auto.
  - discriminate.
Qed.

Lemma component_pass_in l c t :
  component_pass l c = Ok (Some t) -> In t l.
Proof.
  induction l as [|x l IH]; [discriminate|]. cbn [component_pass].
  destruct (getitem x "target_component") as [tc|]; [|discriminate].
  cbn [rbind]. destruct (eq_str tc c).
  - intros [= ->]. now left.
  - intros H; right; auto.
Qed.

Lemma first_or_none_in l : l <> [] -> In (first_or_none l) l.
Proof. destruct l; [congruence | now left]. Qed.

Lemma select_body_in l b c t :
  l <> [] -> select_body l b c = Ok t -> In t l.
Proof.
  intros Hne. unfold select_body.
  destruct (keyword_pass l c (lower b)) as [[t1|]|] eqn:K; cbn [rbind];
    [intros [= <-]; eauto using keyword_pass_in | | discriminate].
  destruct (component_pass l c) as [[t2|]|] eqn:C; cbn [rbind];
    [intros [= <-]; eauto using component_pass_in | | discriminate].
  intros [= <-]. now apply first_or_none_in.
Qed.

Section Selection.
Context {Service : Type}.

(** C1.  On a non-empty catalog of well-formed technique records,
    [select_technique] returns, without touching the world, the technique
    the three-pass rule names: the first entry in stored order whose
    [target_component] is the category and one of whose keywords is a
    substring of the lower-cased barrier text; failing that, the first
    entry whose [target_component] is the category; failing that, the
    first entry of the catalog. *)
Theorem select_technique_three_pass
    (catalog : list json) (barrier_text category : string) (w : World Service) :
  Forall well_formed catalog -> catalog <> [] ->
  exists t,
    select_technique catalog barrier_text category w = (Ok t, w) /\
    three_pass_rule barrier_text category catalog t.
Proof.
  intros W Hne. exists (three_pass barrier_text category catalog). split.
  - unfold select_technique, try_except, lift.
    now rewrite (select_body_well_formed _ _ _ W).
  - now apply three_pass_meets_rule.
Qed.

Lemma select_technique_cases catalog b c (w : World Service) :
  (exists t, select_body catalog b c = Ok t /\
             select_technique catalog b c w = (Ok t, w)) \/
  (exists e, select_body catalog b c = Raise e /\
             select_technique catalog b c w =
             (Ok (first_or_none catalog),
              {| service := service w; trace := trace w ++ [PrintError e] |})).
Proof.
  unfold select_technique, try_except, lift.
  destruct (select_body catalog b c) as [t|e]; [left | right]; eauto.
Qed.

Lemma select_technique_in catalog b c (w : World Service) :
  catalog <> [] ->
  exists t w', select_technique catalog b c w = (Ok t, w') /\
               In t catalog.
Proof.
  intros Hne.
  destruct (select_technique_cases catalog b c w)
    as [(t & Hb & ->)|(e & Hb & ->)].
  - exists t, w. split; [reflexivity | eauto using select_body_in].
  - eexists _, _. split; [reflexivity | now apply first_or_none_in].
Qed.

(** C5.  [select_technique] returns [None] exactly when the catalog is
    empty: on the empty catalog it returns [None], on a non-empty one it
    returns one of the catalog's entries.  (The entries are technique
    records, so none of them is [None] itself.) *)
Theorem select_technique_fails_iff_empty
    (catalog : list json) (barrier_text category : string) (w : World Service) :
  ~ In JNull catalog ->
  exists t w',
    select_technique catalog barrier_text category w = (Ok t, w') /\
    (t = JNull <-> catalog = []) /\
    (catalog <> [] -> In t catalog).
Proof.
  intros Hnull. destruct catalog as [|x l].
  - exists JNull, w. split; [reflexivity|]. split; [tauto | congruence].
  - destruct (select_technique_in (x :: l) barrier_text category w)
      as (t & w' & E & Hin); [discriminate|].
    exists t, w'. split; [exact E|]. split; [|auto].
    split; [|discriminate]. intros ->. contradiction.
Qed.

(** C10.  [select_technique] never raises, whatever the entries of the
    catalog are: it always returns.  When the scan raises, the handler
    returns the first entry of the catalog ([None] when it is empty) after
    printing the error; that entry can be of the wrong category, as in
    [broken_catalog], where a record without [target_component] makes the
    call return a capability technique although a motivation technique
    with a matching keyword is in the catalog. *)
Theorem select_technique_never_raises
    (catalog : list json) (barrier_text category : string) (w : World Service) :
  (exists t w',
      select_technique catalog barrier_text category w = (Ok t, w')) /\
  (forall e,
      select_body catalog barrier_text category = Raise e ->
      select_technique catalog barrier_text category w =
      (Ok (first_or_none catalog),
       {| service := service w; trace := trace w ++ [PrintError e] |})) /\
  (select_body broken_catalog "I'm too tired" "motivation" =
     Raise (KeyError "target_component") /\
   fst (select_technique broken_catalog "I'm too tired" "motivation" w) =
     Ok technique_how /\
   has_component "capability" technique_how /\
   In technique_A broken_catalog /\
   has_component "motivation" technique_A /\
   keyword_hit "I'm too tired" technique_A).
Proof.
  split; [|split].
  - destruct (select_technique_cases catalog barrier_text category w)
      as [(t & _ & ->)|(e & _ & ->)]; eauto.
  - intros e He.
    destruct (select_technique_cases catalog barrier_text category w)
      as [(t & Hb & _)|(e' & Hb & ->)]; [congruence|].
    rewrite He in Hb. now injection Hb as ->.
  - repeat split; try reflexivity.
    + simpl. auto.
    + apply keyword_b_iff. reflexivity.
Qed.

End Selection.

Lemma parse_component_cases (s : string) :
  parse_component s = "capability" \/ parse_component s = "opportunity" \/
  parse_component s = "motivation".
Proof.
  unfold parse_component.
  destruct (contains "capab" s); [auto|].
  destruct (contains "opportun" s); auto.
Qed.

Section Classification.
Context {Service : Type}.
Variable generate_content : string -> Service -> result response * Service.

Lemma analyze_barrier_answer b (w : World Service) r s' :
  generation_answers generate_content (analyze_prompt b) (service w) r s' ->
  analyze_barrier generate_content b w =
  (Ok (parse_component (lower (strip r))),
   {| service := s'; trace := trace w ++ [Generate (analyze_prompt b)] |}).
Proof.
  unfold generation_answers. intros H.
  unfold analyze_barrier, try_except, analyze_body, bind, call_model, lift, ret.
  now rewrite H.
Qed.

Lemma analyze_barrier_failure b (w : World Service) e s' :
  generation_fails generate_content (analyze_prompt b) (service w) e s' ->
  analyze_barrier generate_content b w =
  (Ok "motivation",
   {| service := s';
      trace := (trace w ++ [Generate (analyze_prompt b)]) ++ [PrintError e] |}).
Proof.
  intros [H|(resp & H & Ht)];
    unfold analyze_barrier, try_except, analyze_body, bind, call_model, lift,
           ret, print_error, emit;
    rewrite H; [reflexivity|]. cbn. now rewrite Ht.
Qed.

(** C3.  [analyze_barrier] returns one of the three category names,
    whatever the client does.  When the client answers with the text [r],
    the answer is read by containment up to case: 'capability' if "capab"
    occurs in [r], else 'opportunity' if "opportun" occurs in [r], else
    'motivation'. *)
Theorem analyze_barrier_category (barrier_text : string) (w : World Service) :
  (exists c,
      fst (analyze_barrier generate_content barrier_text w) = Ok c /\
      (c = "capability" \/ c = "opportunity" \/ c = "motivation")) /\
  (forall r s',
      generation_answers generate_content (analyze_prompt barrier_text)
                         (service w) r s' ->
      let answer := fst (analyze_barrier generate_content barrier_text w) in
      (occurs_ci "capab" r -> answer = Ok "capability") /\
      (~ occurs_ci "capab" r -> occurs_ci "opportun" r ->
       answer = Ok "opportunity") /\
      (~ occurs_ci "capab" r -> ~ occurs_ci "opportun" r ->
       answer = Ok "motivation")).
Proof.
  split.
  - destruct (generate_content (analyze_prompt barrier_text) (service w))
      as [[[[t|e]]|e] s'] eqn:G.
    + rewrite (analyze_barrier_answer _ _ t s' G). eexists; split;
        [reflexivity | apply parse_component_cases].
    + rewrite (analyze_barrier_failure _ _ e s');
        [eexists; split; [reflexivity | auto]
        | right; now exists {| text := Raise e |}].
    + rewrite (analyze_barrier_failure _ _ e s');
        [eexists; split; [reflexivity | auto] | now left].
  - intros r s' G answer. subst answer.
    rewrite (analyze_barrier_answer _ _ r s' G). cbn [fst].
    unfold parse_component.
    pose proof (contains_lower_strip "capab" r eq_refl eq_refl eq_refl) as C.
    pose proof (contains_lower_strip "opportun" r eq_refl eq_refl eq_refl) as O.
    destruct (contains "capab" (lower (strip r))).
    + assert (HC : occurs_ci "capab" r) by now apply C.
      split; [|split]; intros; first [reflexivity | contradiction].
    + assert (NC : ~ occurs_ci "capab" r)
        by (intros X; apply C in X; discriminate).
      destruct (contains "opportun" (lower (strip r))).
      * assert (HO : occurs_ci "opportun" r) by now apply O.
        split; [|split]; intros; first [reflexivity | contradiction].
      * assert (NO : ~ occurs_ci "opportun" r)
          by (intros X; apply O in X; discriminate).
        split; [|split]; intros; first [reflexivity | contradiction].
Qed.

(** C6.  When the generation call fails (it raises, or the text of its
    response cannot be read), [analyze_barrier] returns 'motivation' and
    does not raise; the client was called once, with the classification
    prompt, and the only other effect is the printed error. *)
Theorem analyze_barrier_defaults_on_failure
    (barrier_text : string) (w : World Service) (e : exn) (s' : Service) :
  generation_fails generate_content (analyze_prompt barrier_text)
                   (service w) e s' ->
  analyze_barrier generate_content barrier_text w =
  (Ok "motivation",
   {| service := s';
      trace := trace w ++ [Generate (analyze_prompt barrier_text); PrintError e] |}).
Proof.
  intros H. rewrite (analyze_barrier_failure _ _ _ _ H).
  now rewrite <- app_assoc.
Qed.

End Classification.

Section Generation.
Context {Service : Type}.
Variable generate_content : string -> Service -> result response * Service.
Variable py_repr : json -> string.

Lemma generate_intervention_fallback goal technique b (w : World Service) :
  takes_fallback generate_content py_repr goal technique b w ->
  fst (generate_intervention generate_content py_repr goal technique b w) =
  fallback goal technique.
Proof.
  intros (e & w' & H). unfold generate_intervention, try_except.
  rewrite H. reflexivity.
Qed.

(** C7.  Two invocations of [generate_intervention] with the same goal
    and the same technique that both take the [except] branch return the
    same value, hence the same intervention text, whatever their barrier
    texts and whatever the state of the client. *)
Theorem fallback_independent_of_barrier
    (user_goal : string) (technique : json) (barrier1 barrier2 : string)
    (w1 w2 : World Service) :
  takes_fallback generate_content py_repr user_goal technique barrier1 w1 ->
  takes_fallback generate_content py_repr user_goal technique barrier2 w2 ->
  let r1 := fst (generate_intervention generate_content py_repr
                   user_goal technique barrier1 w1) in
  let r2 := fst (generate_intervention generate_content py_repr
                   user_goal technique barrier2 w2) in
  r1 = r2 /\ intervention_text_of r1 = intervention_text_of r2.
Proof.
  intros F1 F2 r1 r2. subst r1 r2.
  rewrite (generate_intervention_fallback _ _ _ _ F1).
  rewrite (generate_intervention_fallback _ _ _ _ F2).
  split; reflexivity.
Qed.

(** C4, amended.  In the scenario (technique A, category 'motivation',
    keywords tired and bored, template "Try pairing [GOAL] with something
    fun.", goal "exercise more"), when the generation call fails the
    intervention text is the fixed prefix "Let's work on ", the goal and
    ". ", followed by the filled template "Try pairing exercise more with
    something fun."; the technique's fields are echoed. *)
Theorem scenario_fallback_text
    (theory duration evidence : json) (barrier_text : string)
    (w : World Service) (e : exn) (s' : Service) :
  generation_fails generate_content
    (final_prompt py_repr "exercise more" barrier_text (JStr "A") theory
                  "Try pairing exercise more with something fun.")
    (service w) e s' ->
  fst (generate_intervention generate_content py_repr "exercise more"
         (scenario_technique theory duration evidence) barrier_text w) =
  Ok (JObj [ ("intervention_text",
              JStr ("Let's work on exercise more. " ++
                    "Try pairing exercise more with something fun."));
             ("technique_name", JStr "A");
             ("theory", theory);
             ("duration_minutes", duration);
             ("evidence", evidence);
             ("target_component", JStr "motivation") ]).
Proof.
  intros [H|(resp & H & Ht)];
    unfold generate_intervention, try_except, generate_body, bind, call_model,
           lift, scenario_technique;
    cbn -[final_prompt]; rewrite H; [reflexivity|].
  cbn -[final_prompt]. rewrite Ht. reflexivity.
Qed.

End Generation.

(** C4 as stated does not hold: with a failing client the intervention
    text of the scenario is not the bare filled template. *)
Lemma scenario_fallback_text_not_bare_template :
  let r := fst (generate_intervention failing_service plain_repr
                  "exercise more" technique_A "I'm too tired" fresh_world) in
  intervention_text_of r =
    Ok (JStr "Let's work on exercise more. Try pairing exercise more with something fun.") /\
  intervention_text_of r <>
    Ok (JStr "Try pairing exercise more with something fun.").
Proof. split; [reflexivity | discriminate]. Qed.

Lemma example_catalog_well_formed : Forall well_formed example_catalog.
Proof.
  repeat constructor.
  - exists "capability", ["how"; "start"]. split; reflexivity.
  - exists "motivation", ["tired"; "bored"]. split; reflexivity.
Qed.

Lemma select_technique_three_pass_witness :
  Forall well_formed example_catalog /\ example_catalog <> [] /\
  exists t,
    select_technique example_catalog "I'm too TIRED" "motivation" fresh_world
      = (Ok t, fresh_world) /\
    three_pass_rule "I'm too TIRED" "motivation" example_catalog t.
Proof.
  assert (N : example_catalog <> []) by discriminate.
  exact (conj example_catalog_well_formed (conj N
    (select_technique_three_pass example_catalog "I'm too TIRED" "motivation"
       fresh_world example_catalog_well_formed N))).
Defined.

Lemma select_technique_fails_iff_empty_witness :
  ~ In JNull broken_catalog /\
  exists t w',
    select_technique broken_catalog "I forget" "opportunity" fresh_world
      = (Ok t, w') /\
    (t = JNull <-> broken_catalog = []) /\
    (broken_catalog <> [] -> In t broken_catalog).
Proof.
  assert (N : ~ In JNull broken_catalog)
    by (intros [H|[H|[H|[]]]]; discriminate H).
  exact (conj N (select_technique_fails_iff_empty broken_catalog "I forget"
                   "opportunity" fresh_world N)).
Defined.

Lemma analyze_barrier_defaults_on_failure_witness :
  generation_fails failing_service (analyze_prompt "I'm too tired")
                   0 (ServiceError "quota exceeded") 1 /\
  analyze_barrier failing_service "I'm too tired" fresh_world =
  (Ok "motivation",
   {| service := 1;
      trace := [Generate (analyze_prompt "I'm too tired");
                PrintError (ServiceError "quota exceeded")] |}).
Proof.
  assert (F : generation_fails failing_service (analyze_prompt "I'm too tired")
                (service fresh_world) (ServiceError "quota exceeded") 1)
    by (left; reflexivity).
  exact (conj F (analyze_barrier_defaults_on_failure failing_service
                   "I'm too tired" fresh_world _ _ F)).
Defined.

Lemma failing_service_takes_fallback goal b :
  takes_fallback failing_service plain_repr goal technique_A b fresh_world.
Proof. eexists _, _. cbv. reflexivity. Qed.

Lemma fallback_independent_of_barrier_witness :
  takes_fallback failing_service plain_repr "exercise more" technique_A
                 "I'm too tired" fresh_world /\
  takes_fallback failing_service plain_repr "exercise more" technique_A
                 "it is boring" fresh_world /\
  let r1 := fst (generate_intervention failing_service plain_repr
                   "exercise more" technique_A "I'm too tired" fresh_world) in
  let r2 := fst (generate_intervention failing_service plain_repr
                   "exercise more" technique_A "it is boring" fresh_world) in
  r1 = r2 /\ intervention_text_of r1 = intervention_text_of r2.
Proof.
  pose proof (failing_service_takes_fallback "exercise more" "I'm too tired") as F1.
  pose proof (failing_service_takes_fallback "exercise more" "it is boring") as F2.
  exact (conj F1 (conj F2
    (fallback_independent_of_barrier failing_service plain_repr
       "exercise more" technique_A "I'm too tired" "it is boring"
       fresh_world fresh_world F1 F2))).
Defined.

Lemma scenario_fallback_text_witness :
  generation_fails failing_service
    (final_prompt plain_repr "exercise more" "I'm too tired" (JStr "A")
                  (JStr "Behavioral Economics")
                  "Try pairing exercise more with something fun.")
    0 (ServiceError "quota exceeded") 1 /\
  fst (generate_intervention failing_service plain_repr "exercise more"
         technique_A "I'm too tired" fresh_world) =
  Ok (JObj [ ("intervention_text",
              JStr ("Let's work on exercise more. " ++
                    "Try pairing exercise more with something fun."));
             ("technique_name", JStr "A");
             ("theory", JStr "Behavioral Economics");
             ("duration_minutes", JInt 5);
             ("evidence", JStr "Milkman et al. 2014");
             ("target_component", JStr "motivation") ]).
Proof.
  assert (F : generation_fails failing_service
    (final_prompt plain_repr "exercise more" "I'm too tired" (JStr "A")
                  (JStr "Behavioral Economics")
                  "Try pairing exercise more with something fun.")
    (service fresh_world) (ServiceError "quota exceeded") 1)
    by (left; reflexivity).
  exact (conj F (scenario_fallback_text failing_service plain_repr
                   (JStr "Behavioral Economics") (JInt 5)
                   (JStr "Milkman et al. 2014") "I'm too tired"
                   fresh_world _ _ F)).
Defined.

End AgentFacts.

(* ================================================================== *)
(** * Facts about the feedback log *)
(* ================================================================== *)

Module FeedbackFacts.
Import PyStr FeedbackManager FeedbackSpec Examples.
Local Open Scope result_scope.

(** ** Runs on concrete inputs *)

Example str_of_int_examples :
  (str_of_int 4, str_of_int 0, str_of_int (-12)) = ("4", "0", "-12").
Proof. reflexivity. Qed.

Example int_of_str_examples :
  (int_of_str "4", int_of_str "-12", int_of_str "007", int_of_str "-0",
   int_of_str "five")
  = (Some 4%Z, Some (-12)%Z, None, None, None).
Proof. reflexivity. Qed.

Example float_of_Z_examples :
  (float_of_Z 4, float_of_Z (-3), float_of_Z 0) = (4%float, (-3)%float, 0%float).
Proof. reflexivity. Qed.

Example short_row_gets_none :
  dict_get (Some "rating") (dict_row header ["2024-05-01 09:30:00"; "run"])
  = Some CNone.
Proof. reflexivity. Qed.

Example refused_write_changes_nothing :
  save_feedback {| now := "2024-05-01 09:30:00"; denied := true |}
    (Some [header]) "run" "rain" "opportunity" "Habit Stacking"
    "Habit Formation" 3 "Maybe" EmptyString
  = (false, Some [header]).
Proof. reflexivity. Qed.

Example statistics_of_header_only :
  get_statistics no_other_float calm (Some [header]) = None.
Proof. reflexivity. Qed.

(** ** Integers through [str] and [float] *)



(** ** What was recorded is what is read *)

Lemma record_all_rows (entries : list (string * Feedback)) (fs : option file) :
  record_all entries fs =
  match entries with
  | [] => fs
  | _ => Some (rows_of fs ++ map row_of entries)%list
  end.
Proof.
  revert fs. induction entries as [|e entries IH]; intros fs; [reflexivity|].
  unfold record_all in *. cbn [fold_left]. rewrite IH.
  destruct entries as [|e' entries]; [reflexivity|].
  cbn [record save_feedback py_open denied snd rows_of].
  now rewrite <- app_assoc.
Qed.



Section Statistics.
Variable float_other : string -> option float.





Lemma mapM_raise {A B} (f : A -> result B) l x e :
  In x l -> f x = Raise e -> exists e', mapM f l = Raise e'.
Proof.
  induction l as [|y l IH]; [intros []|]. intros [->|Hin] Hx; cbn [mapM].
  - rewrite Hx. now exists e.
  - destruct (f y) as [b|e0]; [|now exists e0]. cbn [rbind].
    destruct (IH Hin Hx) as [e' ->]. now exists e'.
Qed.







(** C9.  If one row of the log has a rating field that [float] rejects,
    [get_statistics] returns [None] for the whole log, whatever the other
    rows hold: the same value as for a log that is absent. *)
Theorem statistics_none_on_bad_rating
    (env : Env) (f : file) (r : dict cell) :
  In r (read_rows f) ->
  rating_not_numeric float_other r ->
  get_statistics float_other env (Some f) = None /\
  get_statistics float_other env (Some f) = get_statistics float_other env None.
Proof.
  intros Hin (s & Hs & Hf).
  assert (N : get_statistics float_other env (Some f) = None).
  { unfold get_statistics, statistics_body, py_open.
    destruct (denied env); [reflexivity|]. cbn [rbind].
    destruct (Nat.eqb_spec (List.length (read_rows f)) 0) as [_|_]; [reflexivity|].
    assert (B : row_rating float_other r = Raise ValueError).
    { unfold row_rating, row_getitem. rewrite Hs. cbn [rbind py_float].
      now rewrite Hf. }
    destruct (mapM_raise _ _ _ _ Hin B) as [e' ->]. reflexivity. }
  split; [exact N | now rewrite N].
Qed.

End Statistics.



Lemma statistics_none_on_bad_rating_witness :
  In (dict_row header [ "2024-05-01 09:31:00"; "read daily"; "no time";
                        "opportunity"; "Habit Stacking"; "Habit Formation";
                        "five"; "No"; EmptyString ]) (read_rows bad_log) /\
  rating_not_numeric no_other_float
    (dict_row header [ "2024-05-01 09:31:00"; "read daily"; "no time";
                       "opportunity"; "Habit Stacking"; "Habit Formation";
                       "five"; "No"; EmptyString ]) /\
  get_statistics no_other_float calm (Some bad_log) = None /\
  get_statistics no_other_float calm (Some bad_log) =
  get_statistics no_other_float calm None.
Proof.
  assert (I : In (dict_row header [ "2024-05-01 09:31:00"; "read daily";
                        "no time"; "opportunity"; "Habit Stacking";
                        "Habit Formation"; "five"; "No"; EmptyString ])
                 (read_rows bad_log)) by (right; left; reflexivity).
  assert (B : rating_not_numeric no_other_float
                (dict_row header [ "2024-05-01 09:31:00"; "read daily";
                        "no time"; "opportunity"; "Habit Stacking";
                        "Habit Formation"; "five"; "No"; EmptyString ]))
    by (exists "five"; split; reflexivity).
  exact (conj I (conj B
           (statistics_none_on_bad_rating no_other_float calm bad_log _ I B))).
Defined.
End FeedbackFacts.

(* ================================================================== *)
(** * Further facts about the agent *)
(* ================================================================== *)

Module AgentRunFacts.
Import PyStr PyVal PyStrSpec PyStrFacts MainAgent AgentSpec Examples AgentFacts.
Import AgentRun AgentRunSpec.
Local Open Scope result_scope.

Lemma model_calls_app t1 t2 :
  model_calls (t1 ++ t2) = (model_calls t1 ++ model_calls t2)%list.
Proof.
  induction t1 as [|[p|e] t1 IH]; cbn [app model_calls]; [reflexivity| |exact IH].
  now rewrite IH.
Qed.

Lemma prompts_app o1 o2 :
  prompts (o1 ++ o2) = (prompts o1 ++ prompts o2)%list.
Proof.
  induction o1 as [|[[p|e]|l] o1 IH]; cbn [app prompts]; try exact IH;
    [reflexivity | now rewrite IH].
Qed.

Lemma prompts_methods t : prompts (map Method t) = model_calls t.
Proof.
  induction t as [|[p|e] t IH]; cbn [map prompts model_calls];
    [reflexivity | now rewrite IH | exact IH].
Qed.

Section Classification.
Context {Service : Type}.
Variable generate_content : string -> Service -> result response * Service.

(** What [analyze_barrier] does in every case. *)
Lemma analyze_barrier_run (b : string) (w : World Service) :
  exists c tail,
    analyze_barrier generate_content b w =
      (Ok c,
       {| service := snd (generate_content (analyze_prompt b) (service w));
          trace := trace w ++ Generate (analyze_prompt b) :: tail |}) /\
    (c = "capability" \/ c = "opportunity" \/ c = "motivation") /\
    model_calls tail = [].
Proof.
  destruct (generate_content (analyze_prompt b) (service w))
    as [[[[t|e]]|e] s'] eqn:G; cbn [snd].
  - rewrite (analyze_barrier_answer _ _ _ t s' G).
    exists (parse_component (lower (strip t))), [].
    split; [reflexivity|]. split; [apply parse_component_cases | reflexivity].
  - rewrite (analyze_barrier_failure _ _ _ e s');
      [|right; now exists {| text := Raise e |}].
    exists "motivation", [PrintError e]. rewrite <- app_assoc.
    split; [reflexivity|]. split; [auto | reflexivity].
  - rewrite (analyze_barrier_failure _ _ _ e s'); [|now left].
    exists "motivation", [PrintError e]. rewrite <- app_assoc.
    split; [reflexivity|]. split; [auto | reflexivity].
Qed.

(** X1.  [analyze_barrier] always returns, and in every case it has
    called the model exactly once, with the classification prompt: the
    client is left in the state after that one call and the trace gains
    that one prompt. *)
Theorem analyze_barrier_calls_once (barrier_text : string) (w : World Service) :
  exists c w',
    analyze_barrier generate_content barrier_text w = (Ok c, w') /\
    service w' = snd (generate_content (analyze_prompt barrier_text) (service w)) /\
    model_calls (trace w') =
      (model_calls (trace w) ++ [analyze_prompt barrier_text])%list.
Proof.
  destruct (analyze_barrier_run barrier_text w) as (c & tail & E & _ & T).
  eexists _, _. split; [exact E|]. split; [reflexivity|].
  cbn [trace]. rewrite model_calls_app. cbn [model_calls]. now rewrite T.
Qed.

End Classification.

(** ** [generate_intervention] on a usable technique *)

Lemma result_dict_usable txt t name theory duration evidence component :
  getitem t "name" = Ok name ->
  getitem t "theory" = Ok theory ->
  getitem t "duration_minutes" = Ok duration ->
  getitem t "evidence_base" = Ok evidence ->
  getitem t "target_component" = Ok component ->
  result_dict txt t =
  Ok (JObj [ ("intervention_text", JStr txt); ("technique_name", name);
             ("theory", theory); ("duration_minutes", duration);
             ("evidence", evidence); ("target_component", component) ]).
Proof. intros H1 H2 H3 H4 H5. unfold result_dict. now rewrite H1, H2, H3, H4, H5. Qed.

Lemma result_dict_ok txt t d :
  result_dict txt t = Ok d ->
  exists name theory duration evidence component,
    getitem t "name" = Ok name /\
    getitem t "theory" = Ok theory /\
    getitem t "duration_minutes" = Ok duration /\
    getitem t "evidence_base" = Ok evidence /\
    getitem t "target_component" = Ok component.
Proof.
  unfold result_dict.
  destruct (getitem t "name") as [a1|]; [|discriminate].
  destruct (getitem t "theory") as [a2|]; [|discriminate].
  destruct (getitem t "duration_minutes") as [a3|]; [|discriminate].
  destruct (getitem t "evidence_base") as [a4|]; [|discriminate].
  destruct (getitem t "target_component") as [a5|]; [|discriminate].
  intros _. now exists a1, a2, a3, a4, a5.
Qed.

Lemma fallback_ok goal t d : fallback goal t = Ok d -> usable t.
Proof.
  unfold fallback.
  destruct (getitem t "prompt_template") as [v|] eqn:E; [|discriminate].
  destruct v; try discriminate. cbn [rbind str_replace]. intros H.
  destruct (result_dict_ok _ _ _ H) as (a1 & a2 & a3 & a4 & a5 & H1 & H2 & H3 & H4 & H5).
  now exists s, a1, a2, a3, a4, a5.
Qed.

Lemma echoes_dict txt t name theory duration evidence component :
  getitem t "name" = Ok name ->
  getitem t "theory" = Ok theory ->
  getitem t "duration_minutes" = Ok duration ->
  getitem t "evidence_base" = Ok evidence ->
  getitem t "target_component" = Ok component ->
  echoes (JObj [ ("intervention_text", JStr txt); ("technique_name", name);
                 ("theory", theory); ("duration_minutes", duration);
                 ("evidence", evidence); ("target_component", component) ])
         t txt.
Proof.
  intros H1 H2 H3 H4 H5. unfold echoes. rewrite H1, H2, H3, H4, H5.
  repeat split; reflexivity.
Qed.

Section Generation.
Context {Service : Type}.
Variable generate_content : string -> Service -> result response * Service.
Variable py_repr : json -> string.

Lemma generate_body_ok goal t b (w w' : World Service) d :
  generate_body generate_content py_repr goal t b w = (Ok d, w') -> usable t.
Proof.
  unfold generate_body, bind, lift, call_model.
  destruct (getitem t "prompt_template") as [v|] eqn:E0;
    [|cbn; discriminate].
  destruct v; try (cbn; discriminate). cbn [str_replace].
  destruct (getitem t "name") as [a1|] eqn:E1; [|cbn; discriminate].
  destruct (getitem t "theory") as [a2|] eqn:E2; [|cbn; discriminate].
  cbn iota beta.
  destruct (generate_content _ _) as [[[[r|]]|] s'];
    try (cbn -[final_prompt]; discriminate).
  cbn [text].
  destruct (result_dict (strip r) t) as [d0|] eqn:R; [|discriminate].
  intros _.
  destruct (result_dict_ok _ _ _ R) as (b1 & b2 & a3 & a4 & a5 & H1 & H2 & H3 & H4 & H5).
  now exists s, b1, b2, a3, a4, a5.
Qed.

(** Both paths on a usable technique. *)
Lemma generate_intervention_run goal t b (w : World Service)
    template name theory duration evidence component :
  getitem t "prompt_template" = Ok (JStr template) ->
  getitem t "name" = Ok name ->
  getitem t "theory" = Ok theory ->
  getitem t "duration_minutes" = Ok duration ->
  getitem t "evidence_base" = Ok evidence ->
  getitem t "target_component" = Ok component ->
  let prompt := final_prompt py_repr goal b name theory
                  (replace "[GOAL]" goal template) in
  exists txt tail,
    generate_intervention generate_content py_repr goal t b w =
      (Ok (JObj [ ("intervention_text", JStr txt); ("technique_name", name);
                  ("theory", theory); ("duration_minutes", duration);
                  ("evidence", evidence); ("target_component", component) ]),
       {| service := snd (generate_content prompt (service w));
          trace := trace w ++ Generate prompt :: tail |}) /\
    model_calls tail = [] /\
    (forall r s', generation_answers generate_content prompt (service w) r s' ->
                  txt = strip r) /\
    (forall e s', generation_fails generate_content prompt (service w) e s' ->
                  txt = fallback_text goal template).
Proof.
  intros H0 H1 H2 H3 H4 H5 prompt.
  unfold generate_intervention, try_except, generate_body, bind, lift,
         call_model, print_error, emit, ret, fallback.
  rewrite H0, H1, H2. cbn [str_replace rbind]. fold prompt.
  unfold generation_answers, generation_fails.
  destruct (generate_content prompt (service w)) as [[[[r|e]]|e] s'] eqn:G;
    cbn [snd text service trace];
    rewrite !(result_dict_usable _ _ _ _ _ _ _ H1 H2 H3 H4 H5).
  - exists (strip r), []. split; [reflexivity|]. split; [reflexivity|]. split.
    + now intros r0 s0 [= -> _].
    + intros e0 s0 [X|(resp & X & Y)]; [discriminate|].
      injection X as <- _. discriminate.
  - exists (fallback_text goal template), [PrintError e].
    rewrite <- app_assoc. split; [reflexivity|]. split; [reflexivity|]. split.
    + intros r0 s0 [=]. 
    + reflexivity.
  - exists (fallback_text goal template), [PrintError e].
    rewrite <- app_assoc. split; [reflexivity|]. split; [reflexivity|]. split.
    + intros r0 s0 [=].
    + reflexivity.
Qed.

(** X2.  On a technique that has the six keys and a string template,
    [generate_intervention] returns a dictionary on both paths, having
    called the model exactly once: the five fields of the technique are
    echoed, and the text is the stripped answer when the model answers,
    the fallback text when the call fails. *)
Theorem generate_intervention_on_usable
    (user_goal : string) (technique : json) (barrier_text : string)
    (w : World Service) (template : string) (name theory : json) :
  usable technique ->
  getitem technique "prompt_template" = Ok (JStr template) ->
  getitem technique "name" = Ok name ->
  getitem technique "theory" = Ok theory ->
  let prompt := final_prompt py_repr user_goal barrier_text name theory
                  (replace "[GOAL]" user_goal template) in
  exists d w' txt,
    generate_intervention generate_content py_repr
      user_goal technique barrier_text w = (Ok d, w') /\
    echoes d technique txt /\
    model_calls (trace w') = (model_calls (trace w) ++ [prompt])%list /\
    (forall r s', generation_answers generate_content prompt (service w) r s' ->
                  txt = strip r) /\
    (forall e s', generation_fails generate_content prompt (service w) e s' ->
                  txt = fallback_text user_goal template).
Proof.
  intros (tm & n & th & du & ev & co & U0 & U1 & U2 & U3 & U4 & U5) H0 H1 H2 prompt.
  destruct (generate_intervention_run user_goal technique barrier_text w
              template name theory du ev co H0 H1 H2 U3 U4 U5)
    as (txt & tail & E & T & A & F).
  eexists _, _, txt. split; [exact E|]. split; [now apply echoes_dict|].
  split; [|split; [exact A | exact F]].
  cbn [trace]. rewrite model_calls_app. cbn [model_calls]. now rewrite T.
Qed.

(** X3.  [generate_intervention] returns normally exactly when the
    technique has the six keys it reads and a string template, whatever
    the model does: on any other technique the handler itself raises and
    the error reaches the caller. *)
Theorem generate_intervention_returns_iff_usable
    (user_goal : string) (technique : json) (barrier_text : string)
    (w : World Service) :
  (exists d w',
      generate_intervention generate_content py_repr
        user_goal technique barrier_text w = (Ok d, w')) <->
  usable technique.
Proof.
  split.
  - intros (d & w' & H). unfold generate_intervention, try_except in H.
    destruct (generate_body generate_content py_repr user_goal technique
                barrier_text w) as [[d0|e] w0] eqn:B.
    + eauto using generate_body_ok.
    + unfold bind, print_error, emit, lift in H.
      destruct (fallback user_goal technique) as [d1|] eqn:F; [|discriminate].
      eauto using fallback_ok.
  - intros (tm & n & th & du & ev & co & U0 & U1 & U2 & U3 & U4 & U5).
    destruct (generate_intervention_run user_goal technique barrier_text w
                tm n th du ev co U0 U1 U2 U3 U4 U5) as (txt & tail & E & _).
    eauto.
Qed.

End Generation.

(** ** [run] *)

Lemma usable_truthy (float_nonzero : string -> bool) t :
  usable t -> truthy float_nonzero t = true.
Proof.
  intros (tm & n & th & du & ev & co & U0 & _).
  destruct t as [| | | | | |kv]; try discriminate.
  destruct kv; [discriminate | reflexivity].
Qed.

Section Pipeline.
Context {Service : Type}.
Variable generate_content : string -> Service -> result response * Service.
Variable py_repr : json -> string.
Variable float_nonzero : string -> bool.

Lemma method_analyze (b : string) (rw : RunWorld Service) :
  exists c tail,
    method Service (analyze_barrier generate_content b) rw =
      (Ok c,
       {| client := snd (generate_content (analyze_prompt b) (client rw));
          output := output rw ++
                    map Method (Generate (analyze_prompt b) :: tail) |}) /\
    model_calls tail = [].
Proof.
  unfold method.
  destruct (analyze_barrier_run generate_content b
              {| service := client rw; trace := [] |})
    as (c & tail & E & _ & T).
  rewrite E. now exists c, tail.
Qed.

Lemma method_select techniques b c (rw : RunWorld Service) :
  exists t tail,
    method Service (select_technique techniques b c) rw =
      (Ok t, {| client := client rw;
                output := output rw ++ map Method tail |}) /\
    model_calls tail = [] /\
    (techniques = [] /\ t = JNull \/ In t techniques).
Proof.
  unfold method.
  assert (I : forall t, select_body techniques b c = Ok t ->
                        techniques = [] /\ t = JNull \/ In t techniques).
  { intros t H. destruct techniques as [|x l]; [left | right].
    - split; [reflexivity|]. now injection H as <-.
    - eapply select_body_in; [discriminate | exact H]. }
  assert (F : techniques = [] /\ first_or_none techniques = JNull \/
              In (first_or_none techniques) techniques).
  { destruct techniques; [now left | right; now left]. }
  destruct (select_technique_cases techniques b c
              {| service := client rw; trace := [] |})
    as [(t & Hb & ->)|(e & Hb & ->)].
  - exists t, []. cbn [service trace map]. rewrite app_nil_r. auto.
  - exists (first_or_none techniques), [PrintError e]. auto.
Qed.

Lemma select_technique_result {S1 S2 : Type} techniques b c
    (w1 : World S1) (w2 : World S2) :
  fst (select_technique techniques b c w1) =
  fst (select_technique techniques b c w2).
Proof.
  unfold select_technique, try_except, lift.
  now destruct (select_body techniques b c).
Qed.

Lemma method_result {A} (m : M Service A) (rw : RunWorld Service) :
  fst (method Service m rw) = fst (m {| service := client rw; trace := [] |}).
Proof. unfold method. now destruct (m _). Qed.

(** Up to the selection: one call of the model, and a selected value
    that is what [select_technique] returns for the category that
    [analyze_barrier] returned: an entry of the catalog, or [None] on the
    empty catalog. *)
Lemma run_selects techniques goal barrier (rw : RunWorld Service) :
  exists c t out,
    fst (analyze_barrier generate_content barrier
           {| service := client rw; trace := [] |}) = Ok c /\
    (forall w : World Service,
        fst (select_technique techniques barrier c w) = Ok t) /\
    run generate_content py_repr float_nonzero techniques goal barrier rw =
      deliver generate_content py_repr float_nonzero goal barrier t
        {| client := snd (generate_content (analyze_prompt barrier) (client rw));
           output := out |} /\
    prompts out = (prompts (output rw) ++ [analyze_prompt barrier])%list /\
    (techniques = [] /\ t = JNull \/ In t techniques).
Proof.
  unfold run, rseq at 1, say at 1. cbn [client output].
  unfold rseq at 1.
  pose proof (method_result (analyze_barrier generate_content barrier)
                {| client := client rw;
                   output := output rw ++ [Line Analyzing] |}) as RA.
  destruct (method_analyze barrier
              {| client := client rw; output := output rw ++ [Line Analyzing] |})
    as (c & tail1 & E1 & T1).
  rewrite E1 in RA |- *. cbn [fst client] in RA.
  unfold rseq at 1, say at 1. unfold rseq at 1, say at 1. cbn [client output].
  unfold rseq at 1.
  match goal with
  | |- context [method Service (select_technique techniques barrier c) ?rw0] =>
      pose proof (method_result (select_technique techniques barrier c) rw0) as RS;
      destruct (method_select techniques barrier c rw0)
        as (t & tail2 & E2 & T2 & I)
  end.
  rewrite E2 in RS |- *. cbn [fst] in RS.
  cbn [client output]. eexists c, t, _.
  split; [now symmetry|]. split.
  - intros w. rewrite RS. apply select_technique_result.
  - split; [reflexivity|]. split; [|exact I].
    rewrite !prompts_app, !prompts_methods. cbn [model_calls prompts].
    rewrite T1, T2, !app_nil_r. reflexivity.
Qed.

(** X7.  With the catalog [_load_techniques] yields when the file is
    missing, [run] returns [None] for every goal and barrier, and it has
    still called the model once, for the classification. *)
Theorem run_without_catalog
    (techniques : list json) (user_goal user_barrier : string)
    (rw : RunWorld Service) :
  _load_techniques None = Ok (JList techniques) ->
  exists rw',
    run generate_content py_repr float_nonzero techniques
        user_goal user_barrier rw = (Ok JNull, rw') /\
    prompts (output rw') =
      (prompts (output rw) ++ [analyze_prompt user_barrier])%list.
Proof.
  intros [= <-].
  destruct (run_selects [] user_goal user_barrier rw)
    as (c & t & out & _ & _ & -> & P & I).
  destruct I as [[_ ->]|[]]. cbn. eexists. split; [reflexivity|].
  cbn [output]. rewrite prompts_app, P. cbn [prompts]. now rewrite app_nil_r.
Qed.

(** X8.  On a non-empty catalog of usable records [run] never raises
    and never returns [None]: it returns the dictionary of an entry of
    the catalog, after exactly two calls of the model, the
    classification and the generation. *)
Theorem run_delivers
    (techniques : list json) (user_goal user_barrier : string)
    (rw : RunWorld Service) :
  techniques <> [] ->
  Forall usable techniques ->
  exists t d txt rw' prompt,
    In t techniques /\
    run generate_content py_repr float_nonzero techniques
        user_goal user_barrier rw = (Ok d, rw') /\
    echoes d t txt /\
    prompts (output rw') =
      (prompts (output rw) ++ [analyze_prompt user_barrier; prompt])%list.
Proof.
  intros Hne U.
  destruct (run_selects techniques user_goal user_barrier rw)
    as (c & t & out & _ & _ & -> & P & [[-> _]|I]); [congruence|].
  pose proof (proj1 (Forall_forall _ _) U t I) as Ut.
  pose proof Ut as (tm & n & th & du & ev & co & U0 & U1 & U2 & U3 & U4 & U5).
  unfold deliver. rewrite (usable_truthy float_nonzero t Ut). cbn [negb].
  unfold rseq at 1, rlift. rewrite U1.
  unfold rseq at 1, say at 1. unfold rseq at 1, say at 1. cbn [client output].
  unfold rseq at 1, method.
  match goal with
  | |- context [generate_intervention _ _ _ _ _ ?w0] =>
      destruct (generate_intervention_run generate_content py_repr
                  user_goal t user_barrier w0 tm n th du ev co
                  U0 U1 U2 U3 U4 U5) as (txt & tail & -> & T & _)
  end.
  cbn [service trace app rret].
  eexists t, _, txt, _, _. split; [exact I|]. split; [reflexivity|].
  split; [now apply echoes_dict|].
  cbn [output]. rewrite !prompts_app, P. cbn [map prompts].
  rewrite prompts_methods, T, !app_nil_r, <- app_assoc. reflexivity.
Qed.

(** X9.  [run] reads the name of the selected technique outside any
    [try]: on a non-empty catalog whose entries are all truthy but cannot
    give a name, [run] raises, after the classification call and before
    any generation call. *)
Theorem run_raises_without_name
    (techniques : list json) (user_goal user_barrier : string)
    (rw : RunWorld Service) :
  techniques <> [] ->
  Forall (fun t => truthy float_nonzero t = true /\
                   exists e, getitem t "name" = Raise e) techniques ->
  exists e rw',
    run generate_content py_repr float_nonzero techniques
        user_goal user_barrier rw = (Raise e, rw') /\
    prompts (output rw') =
      (prompts (output rw) ++ [analyze_prompt user_barrier])%list.
Proof.
  intros Hne U.
  destruct (run_selects techniques user_goal user_barrier rw)
    as (c & t & out & _ & _ & -> & P & [[-> _]|I]); [congruence|].
  destruct (proj1 (Forall_forall _ _) U t I) as (Tt & e & N).
  unfold deliver. rewrite Tt. cbn [negb]. unfold rseq at 1, rlift. rewrite N.
  exists e. eexists. split; [reflexivity | exact P].
Qed.

(** X10.  When every call of the model fails, [run] on a non-empty
    catalog of usable records still returns an intervention: the
    technique is the one [select_technique] picks for 'motivation', and
    the text is the fallback text built from its template. *)
Theorem run_with_service_down
    (techniques : list json) (user_goal user_barrier : string)
    (rw : RunWorld Service) :
  service_down generate_content ->
  techniques <> [] ->
  Forall usable techniques ->
  exists t template d rw',
    (forall w : World Service,
        fst (select_technique techniques user_barrier "motivation" w) = Ok t) /\
    getitem t "prompt_template" = Ok (JStr template) /\
    run generate_content py_repr float_nonzero techniques
        user_goal user_barrier rw = (Ok d, rw') /\
    echoes d t (fallback_text user_goal template).
Proof.
  intros Down Hne U.
  destruct (run_selects techniques user_goal user_barrier rw)
    as (c & t & out & A & S & -> & P & [[-> _]|I]); [congruence|].
  assert (c = "motivation") as ->.
  { destruct (Down (analyze_prompt user_barrier) (client rw)) as (e & F).
    rewrite (analyze_barrier_failure generate_content user_barrier
               {| service := client rw; trace := [] |} e _ F) in A.
    now injection A as <-. }
  pose proof (proj1 (Forall_forall _ _) U t I) as Ut.
  pose proof Ut as (tm & n & th & du & ev & co & U0 & U1 & U2 & U3 & U4 & U5).
  unfold deliver. rewrite (usable_truthy float_nonzero t Ut). cbn [negb].
  unfold rseq at 1, rlift. rewrite U1.
  unfold rseq at 1, say at 1. unfold rseq at 1, say at 1. cbn [client output].
  unfold rseq at 1, method.
  match goal with
  | |- context [generate_intervention _ _ _ _ _ ?w0] =>
      destruct (generate_intervention_run generate_content py_repr
                  user_goal t user_barrier w0 tm n th du ev co
                  U0 U1 U2 U3 U4 U5) as (txt & tail & -> & _ & _ & F);
      destruct (Down (final_prompt py_repr user_goal user_barrier n th
                        (replace "[GOAL]" user_goal tm)) (service w0))
        as (e & Fe);
      rewrite (F e _ Fe)
  end.
  cbn [service trace app rret].
  eexists t, tm, _, _. split; [exact S|]. split; [exact U0|].
  split; [reflexivity | now apply echoes_dict].
Qed.

End Pipeline.
End AgentRunFacts.

Module SelectionFacts.
Import PyStr PyVal PyStrSpec PyStrFacts MainAgent AgentSpec Examples AgentFacts.
Import AgentRun AgentRunSpec AgentRunFacts.
Local Open Scope result_scope.

Lemma first_such_in P l t : first_such P l t -> In t l /\ P t.
Proof.
  intros (before & after & -> & Pt & _). split; [|exact Pt].
  apply in_or_app. right. now left.
Qed.

Lemma is_upper_lower_char (c : ascii) : is_upper (lower_char c) = false.
Proof. destruct c as [[] [] [] [] [] [] [] []]; reflexivity. Qed.

Lemma has_upper_lower (s : string) : has_upper (lower s) = false.
Proof.
  induction s as [|c s IH]; [reflexivity|]. cbn [lower has_upper].
  now rewrite is_upper_lower_char, IH.
Qed.

Lemma has_upper_app (a b : string) :
  has_upper (a ++ b) = has_upper a || has_upper b.
Proof.
  induction a as [|c a IH]; [reflexivity|]. cbn [append has_upper].
  now rewrite IH, orb_assoc.
Qed.

(** A keyword with an upper-case letter is in no lower-cased text. *)
Lemma capital_keyword_never_matches (k b : string) :
  has_upper k = true -> contains k (lower b) = false.
Proof.
  intros Hk. destruct (contains k (lower b)) eqn:C; [|reflexivity].
  apply contains_iff in C. destruct C as (pre & post & E).
  pose proof (has_upper_lower b) as L. rewrite E, !has_upper_app, Hk in L.
  now rewrite orb_true_r in L.
Qed.

Lemma keyword_b_capitalised (b : string) (t : json) :
  keywords_capitalised t -> keyword_b (lower b) t = false.
Proof.
  unfold keyword_b. intros (kws & -> & F).
  induction F as [|k kws Hk _ IH]; [reflexivity|]. cbn [map existsb].
  now rewrite (capital_keyword_never_matches k b Hk), IH.
Qed.

Lemma find_all_false {A} (p : A -> bool) (l : list A) :
  (forall x, In x l -> p x = false) -> find p l = None.
Proof.
  induction l as [|x l IH]; [reflexivity|]. intros H. cbn [find].
  rewrite (H x (or_introl eq_refl)). apply IH. intros y Hy. apply H. now right.
Qed.

Lemma three_pass_capitalised b c l :
  Forall keywords_capitalised l ->
  three_pass b c l =
  match find (component_b c) l with
  | Some t => t
  | None => first_or_none l
  end.
Proof.
  intros F. unfold three_pass. rewrite find_all_false; [reflexivity|].
  intros x Hx. rewrite (keyword_b_capitalised b x); [apply andb_false_r|].
  exact (proj1 (Forall_forall _ _) F x Hx).
Qed.

Section Selection.
Context {Service : Type}.

(** X5.  On a non-empty catalog of well-formed records,
    [select_technique] returns a technique of the requested category
    whenever the catalog has one, and the first entry of the catalog when
    it has none. *)
Theorem select_technique_keeps_category
    (catalog : list json) (barrier_text category : string) (w : World Service) :
  Forall well_formed catalog -> catalog <> [] ->
  exists t,
    select_technique catalog barrier_text category w = (Ok t, w) /\
    ((exists x, In x catalog /\ has_component category x) ->
     has_component category t) /\
    ((forall x, In x catalog -> ~ has_component category x) ->
     hd_error catalog = Some t).
Proof.
  intros W Hne. exists (three_pass barrier_text category catalog).
  split.
  - unfold select_technique, try_except, lift.
    now rewrite (select_body_well_formed _ _ _ W).
  - pose proof (three_pass_meets_rule barrier_text category catalog Hne) as R.
    destruct R as [R|[[_ R]|[N R]]].
    + apply first_such_in in R. destruct R as [I [C _]]. split; [auto|].
      intros N. now elim (N _ I).
    + apply first_such_in in R. destruct R as [I C]. split; [auto|].
      intros N. now elim (N _ I).
    + split; [|auto]. intros (x & I & C). now elim (N x I).
Qed.

(** X6.  Keywords are compared as they are with the lower-cased barrier
    text, so a keyword with an upper-case letter never matches: on a
    well-formed catalog whose keywords all have one, no technique is hit
    by keyword and the selection is the same for every barrier text. *)
Theorem select_technique_ignores_capitalised_keywords
    (catalog : list json) (barrier1 barrier2 category : string)
    (w : World Service) :
  Forall well_formed catalog ->
  Forall keywords_capitalised catalog ->
  (forall t, In t catalog -> ~ keyword_hit barrier1 t) /\
  select_technique catalog barrier1 category w =
  select_technique catalog barrier2 category w.
Proof.
  intros W F. split.
  - intros t I H. apply keyword_b_iff in H.
    rewrite keyword_b_capitalised in H; [discriminate|].
    exact (proj1 (Forall_forall _ _) F t I).
  - unfold select_technique, try_except, lift.
    rewrite !(select_body_well_formed _ _ _ W).
    now rewrite !(three_pass_capitalised _ _ _ F).
Qed.

End Selection.

(** ** Templates without the placeholder *)

Lemma prefix_false_of_contains (old s : string) :
  contains old s = false -> prefix old s = false.
Proof.
  destruct s; cbn [contains]; intros H; now apply orb_false_iff in H.
Qed.

Lemma replace_scan_absent (old new s : string) :
  contains old s = false -> replace_scan old new 0 s = s.
Proof.
  induction s as [|c s IH]; [reflexivity|]. intros H.
  cbn [replace_scan]. rewrite (prefix_false_of_contains _ _ H).
  cbn [contains] in H. apply orb_false_iff in H. now rewrite (IH (proj2 H)).
Qed.

Section Generation.
Context {Service : Type}.
Variable generate_content : string -> Service -> result response * Service.
Variable py_repr : json -> string.

(** X4.  When the template of a usable technique does not contain
    "[GOAL]", the fallback text is the prefix, the goal and the template
    as it is: the goal appears in the prefix only. *)
Theorem fallback_without_placeholder
    (user_goal : string) (technique : json) (barrier_text : string)
    (w : World Service) (template : string) :
  usable technique ->
  getitem technique "prompt_template" = Ok (JStr template) ->
  ~ occurs_in "[GOAL]" template ->
  takes_fallback generate_content py_repr user_goal technique barrier_text w ->
  intervention_text_of
    (fst (generate_intervention generate_content py_repr
            user_goal technique barrier_text w)) =
  Ok (JStr ("Let's work on " ++ user_goal ++ ". " ++ template)).
Proof.
  intros (tm & n & th & du & ev & co & U0 & U1 & U2 & U3 & U4 & U5) H0 N T.
  rewrite (generate_intervention_fallback _ _ _ _ _ _ T).
  unfold fallback. rewrite H0. cbn [rbind str_replace].
  assert (C : contains "[GOAL]" template = false).
  { destruct (contains "[GOAL]" template) eqn:C; [|reflexivity].
    now apply contains_iff in C. }
  unfold replace. rewrite (replace_scan_absent _ _ _ C).
  rewrite (result_dict_usable _ _ _ _ _ _ _ U1 U2 U3 U4 U5). reflexivity.
Qed.

End Generation.

End SelectionFacts.

Module AgentWitnesses.
Import PyStr PyVal PyStrSpec PyStrFacts MainAgent AgentSpec Examples AgentFacts.
Import AgentRun AgentRunSpec AgentRunFacts SelectionFacts MoreExamples.

Lemma technique_A_usable : usable technique_A.
Proof. unfold usable. repeat eexists; reflexivity. Qed.

Lemma technique_how_usable : usable technique_how.
Proof. unfold usable. repeat eexists; reflexivity. Qed.

Lemma technique_capitals_usable : usable technique_capitals.
Proof. unfold usable. repeat eexists; reflexivity. Qed.

Lemma generate_intervention_on_usable_witness :
  usable technique_A /\
  getitem technique_A "prompt_template"
    = Ok (JStr "Try pairing [GOAL] with something fun.") /\
  getitem technique_A "name" = Ok (JStr "A") /\
  getitem technique_A "theory" = Ok (JStr "Behavioral Economics") /\
  exists d w' txt,
    generate_intervention failing_service plain_repr
      "exercise more" technique_A "I'm too tired" fresh_world = (Ok d, w') /\
    echoes d technique_A txt /\
    model_calls (trace w') =
      (model_calls (trace fresh_world) ++
       [final_prompt plain_repr "exercise more" "I'm too tired" (JStr "A")
          (JStr "Behavioral Economics")
          (replace "[GOAL]" "exercise more"
                   "Try pairing [GOAL] with something fun.")])%list /\
    (forall r s',
        generation_answers failing_service
          (final_prompt plain_repr "exercise more" "I'm too tired" (JStr "A")
             (JStr "Behavioral Economics")
             (replace "[GOAL]" "exercise more"
                      "Try pairing [GOAL] with something fun."))
          (service fresh_world) r s' -> txt = strip r) /\
    (forall e s',
        generation_fails failing_service
          (final_prompt plain_repr "exercise more" "I'm too tired" (JStr "A")
             (JStr "Behavioral Economics")
             (replace "[GOAL]" "exercise more"
                      "Try pairing [GOAL] with something fun."))
          (service fresh_world) e s' ->
        txt = fallback_text "exercise more"
                "Try pairing [GOAL] with something fun.").
Proof.
  exact (conj technique_A_usable (conj eq_refl (conj eq_refl (conj eq_refl
    (generate_intervention_on_usable failing_service plain_repr
       "exercise more" technique_A "I'm too tired" fresh_world
       "Try pairing [GOAL] with something fun." (JStr "A")
       (JStr "Behavioral Economics")
       technique_A_usable eq_refl eq_refl eq_refl))))).
Defined.

Lemma run_without_catalog_witness :
  _load_techniques None = Ok (JList []) /\
  exists rw',
    run failing_service plain_repr zero_literal []
        "exercise more" "I'm too tired" fresh_run = (Ok JNull, rw') /\
    prompts (output rw') =
      (prompts (output fresh_run) ++ [analyze_prompt "I'm too tired"])%list.
Proof.
  exact (conj eq_refl
    (run_without_catalog failing_service plain_repr zero_literal []
       "exercise more" "I'm too tired" fresh_run eq_refl)).
Defined.

Lemma example_catalog_usable : Forall usable example_catalog.
Proof.
  repeat constructor; [apply technique_how_usable | apply technique_A_usable].
Qed.

Lemma run_delivers_witness :
  example_catalog <> [] /\
  Forall usable example_catalog /\
  exists t d txt rw' prompt,
    In t example_catalog /\
    run (canned_service "motivation") plain_repr zero_literal example_catalog
        "exercise more" "I'm too tired" fresh_run = (Ok d, rw') /\
    echoes d t txt /\
    prompts (output rw') =
      (prompts (output fresh_run) ++
       [analyze_prompt "I'm too tired"; prompt])%list.
Proof.
  assert (N : example_catalog <> []) by discriminate.
  exact (conj N (conj example_catalog_usable
    (run_delivers (canned_service "motivation") plain_repr zero_literal
       example_catalog "exercise more" "I'm too tired" fresh_run
       N example_catalog_usable))).
Defined.

Lemma nameless_catalog_nameless :
  Forall (fun t => truthy zero_literal t = true /\
                   exists e, getitem t "name" = Raise e) nameless_catalog.
Proof.
  repeat constructor. now exists (KeyError "name").
Qed.

Lemma run_raises_without_name_witness :
  nameless_catalog <> [] /\
  Forall (fun t => truthy zero_literal t = true /\
                   exists e, getitem t "name" = Raise e) nameless_catalog /\
  exists e rw',
    run (canned_service "motivation") plain_repr zero_literal nameless_catalog
        "exercise more" "I'm too tired" fresh_run = (Raise e, rw') /\
    prompts (output rw') =
      (prompts (output fresh_run) ++ [analyze_prompt "I'm too tired"])%list.
Proof.
  assert (N : nameless_catalog <> []) by discriminate.
  exact (conj N (conj nameless_catalog_nameless
    (run_raises_without_name (canned_service "motivation") plain_repr
       zero_literal nameless_catalog "exercise more" "I'm too tired"
       fresh_run N nameless_catalog_nameless))).
Defined.

Lemma select_technique_keeps_category_witness :
  Forall well_formed example_catalog /\ example_catalog <> [] /\
  exists t,
    select_technique example_catalog "no idea" "motivation" fresh_world
      = (Ok t, fresh_world) /\
    ((exists x, In x example_catalog /\ has_component "motivation" x) ->
     has_component "motivation" t) /\
    ((forall x, In x example_catalog -> ~ has_component "motivation" x) ->
     hd_error example_catalog = Some t).
Proof.
  assert (N : example_catalog <> []) by discriminate.
  exact (conj example_catalog_well_formed (conj N
    (select_technique_keeps_category example_catalog "no idea" "motivation"
       fresh_world example_catalog_well_formed N))).
Defined.

Lemma capitals_capitalised :
  Forall keywords_capitalised [technique_capitals].
Proof.
  repeat constructor. exists ["Tired"; "BORED"].
  split; [reflexivity | repeat constructor].
Qed.

Lemma capitals_alone_well_formed : Forall well_formed [technique_capitals].
Proof.
  repeat constructor. exists "motivation", ["Tired"; "BORED"]. split; reflexivity.
Qed.

Lemma select_technique_ignores_capitalised_keywords_witness :
  Forall well_formed [technique_capitals] /\
  Forall keywords_capitalised [technique_capitals] /\
  (forall t, In t [technique_capitals] -> ~ keyword_hit "I am Tired" t) /\
  select_technique [technique_capitals] "I am Tired" "motivation" fresh_world =
  select_technique [technique_capitals] "so BORED" "motivation" fresh_world.
Proof.
  exact (conj capitals_alone_well_formed (conj capitals_capitalised
    (select_technique_ignores_capitalised_keywords [technique_capitals]
       "I am Tired" "so BORED" "motivation" fresh_world
       capitals_alone_well_formed capitals_capitalised))).
Defined.

Lemma capitals_no_placeholder :
  ~ occurs_in "[GOAL]" "Pair it with something you enjoy.".
Proof. intros H. apply contains_iff in H. discriminate H. Qed.

Lemma capitals_takes_fallback :
  takes_fallback failing_service plain_repr "exercise more"
                 technique_capitals "I'm too tired" fresh_world.
Proof. eexists _, _. cbv. reflexivity. Qed.

Lemma fallback_without_placeholder_witness :
  usable technique_capitals /\
  getitem technique_capitals "prompt_template"
    = Ok (JStr "Pair it with something you enjoy.") /\
  ~ occurs_in "[GOAL]" "Pair it with something you enjoy." /\
  takes_fallback failing_service plain_repr "exercise more"
                 technique_capitals "I'm too tired" fresh_world /\
  intervention_text_of
    (fst (generate_intervention failing_service plain_repr
            "exercise more" technique_capitals "I'm too tired" fresh_world)) =
  Ok (JStr ("Let's work on " ++ "exercise more" ++ ". " ++
            "Pair it with something you enjoy.")).
Proof.
  exact (conj technique_capitals_usable (conj eq_refl
    (conj capitals_no_placeholder (conj capitals_takes_fallback
      (fallback_without_placeholder failing_service plain_repr
         "exercise more" technique_capitals "I'm too tired" fresh_world
         "Pair it with something you enjoy."
         technique_capitals_usable eq_refl capitals_no_placeholder
         capitals_takes_fallback))))).
Defined.

Lemma failing_service_down : service_down failing_service.
Proof. intros prompt s. eexists. left. reflexivity. Qed.

Lemma run_with_service_down_witness :
  service_down failing_service /\
  example_catalog <> [] /\
  Forall usable example_catalog /\
  exists t template d rw',
    (forall w : World nat,
        fst (select_technique example_catalog "I'm too tired" "motivation" w)
        = Ok t) /\
    getitem t "prompt_template" = Ok (JStr template) /\
    run failing_service plain_repr zero_literal example_catalog
        "exercise more" "I'm too tired" fresh_run = (Ok d, rw') /\
    echoes d t (fallback_text "exercise more" template).
Proof.
  assert (N : example_catalog <> []) by discriminate.
  exact (conj failing_service_down (conj N (conj example_catalog_usable
    (run_with_service_down failing_service plain_repr zero_literal
       example_catalog "exercise more" "I'm too tired" fresh_run
       failing_service_down N example_catalog_usable)))).
Defined.

End AgentWitnesses.

(* ================================================================== *)
(** * Further facts about the feedback log *)
(* ================================================================== *)

Module StatisticsFacts.
Import PyStr FeedbackManager FeedbackSpec Examples FeedbackFacts StatisticsSpec.
Import MoreExamples.
Local Open Scope result_scope.

(** ** Dictionaries *)

Lemma key_eqb_eq (a b : option string) : key_eqb a b = true <-> a = b.
Proof.
  destruct a as [x|], b as [y|]; cbn; try (split; [discriminate | congruence]).
  - rewrite String.eqb_eq. split; congruence.
  - tauto.
Qed.



Lemma dict_get_set_other {V} (k k' : option string) (v : V) (d : dict V) :
  key_eqb k' k = false -> dict_get k (dict_set k' v d) = dict_get k d.
Proof.
  intros N. induction d as [|[k0 v0] d IH]; cbn [dict_set dict_get].
  - now rewrite N.
  - destruct (key_eqb k0 k') eqn:E; cbn [dict_get].
    + apply key_eqb_eq in E. subst k0. now rewrite N.
    + destruct (key_eqb k0 k); auto.
Qed.


Lemma sum_counts_set (k : option string) (v : Z) (d : dict Z) :
  sum_counts (dict_set k v d) =
  (sum_counts d + v - match dict_get k d with Some n => n | None => 0 end)%Z.
Proof.
  induction d as [|[k0 v0] d IH]; cbn [dict_set dict_get sum_counts]; [lia|].
  destruct (key_eqb k0 k); cbn [sum_counts]; lia.
Qed.

(** ** When the loops succeed *)

Lemma mapM_ok_iff {A B} (f : A -> result B) (l : list A) :
  (exists ys, mapM f l = Ok ys) <-> Forall (fun x => exists y, f x = Ok y) l.
Proof.
  induction l as [|x l IH]; cbn [mapM].
  - split; [constructor | now exists []].
  - split.
    + intros (ys & H). destruct (f x) as [y|] eqn:E; [|discriminate].
      cbn [rbind] in H. destruct (mapM f l) as [zs|]; [|discriminate].
      constructor; [now exists y | apply IH; now exists zs].
    + intros H. inversion H as [|? ? (y & E) Hl]; subst.
      apply IH in Hl. destruct Hl as (zs & ->). rewrite E. now eexists.
Qed.

Lemma mapM_length {A B} (f : A -> result B) (l : list A) ys :
  mapM f l = Ok ys -> List.length ys = List.length l.
Proof.
  revert ys. induction l as [|x l IH]; cbn [mapM]; intros ys.
  - now intros [= <-].
  - destruct (f x); [|discriminate]. cbn [rbind].
    destruct (mapM f l) as [zs|]; [|discriminate]. intros [= <-].
    cbn [List.length]. now rewrite (IH zs).
Qed.

Lemma keyed_ok_iff field r :
  (exists k, keyed field r = Ok k) <->
  exists c, dict_get (Some field) r = Some c /\ forall l, c <> CRest l.
Proof.
  unfold keyed, row_getitem.
  destruct (dict_get (Some field) r) as [c|]; cbn [rbind].
  - destruct c; cbn [dict_key]; split.
    + intros _. eexists; split; [reflexivity | discriminate].
    + eauto.
    + intros _. eexists; split; [reflexivity | discriminate].
    + eauto.
    + intros (k & H). discriminate.
    + intros (c & [= <-] & N). now elim (N extra).
  - split; [intros (k & H); discriminate | intros (c & H & _); discriminate].
Qed.

Section Statistics.
Variable float_other : string -> option float.

Lemma row_rating_ok_iff r :
  (exists x, row_rating float_other r = Ok x) <->
  exists s x, dict_get (Some "rating") r = Some (CStr s) /\
              float_of_str float_other s = Some x.
Proof.
  unfold row_rating, row_getitem.
  destruct (dict_get (Some "rating") r) as [c|]; cbn [rbind].
  - destruct c; cbn [py_float].
    + destruct (float_of_str float_other s) as [x|] eqn:E; split.
      * intros _. now exists s, x.
      * eauto.
      * intros (x & H). discriminate.
      * intros (s0 & x & [= <-] & H). congruence.
    + split; [intros (x & H); discriminate | intros (s & x & H & _); discriminate].
    + split; [intros (x & H); discriminate | intros (s & x & H & _); discriminate].
  - split; [intros (x & H); discriminate | intros (s & x & H & _); discriminate].
Qed.

Lemma row_would_try_ok_iff r :
  (exists b, row_would_try r = Ok b) <->
  exists s, dict_get (Some "would_try") r = Some (CStr s).
Proof.
  unfold row_would_try, row_getitem.
  destruct (dict_get (Some "would_try") r) as [c|]; cbn [rbind].
  - destruct c; split; eauto;
      try (intros (b & H); discriminate); intros (s & H); discriminate.
  - split; [intros (b & H); discriminate | intros (s & H); discriminate].
Qed.

Lemma group_ratings_ok_iff rows acc :
  (exists d, group_ratings float_other rows acc = Ok d) <->
  Forall (fun r => (exists k, keyed "technique_used" r = Ok k) /\
                   (exists x, row_rating float_other r = Ok x)) rows.
Proof.
  revert acc. induction rows as [|r rows IH]; intros acc; cbn [group_ratings].
  - split; [constructor | now exists acc].
  - destruct (row_getitem r "technique_used") as [c|] eqn:Eg; cbn [rbind];
      [destruct (dict_key c) as [tech|] eqn:Ek; cbn [rbind]; cbv zeta;
       [destruct (row_rating float_other r) as [x|] eqn:Er; cbn [rbind]|]|].
    + rewrite IH. split.
      * intros H. constructor; [|exact H]. split; [|eauto].
        exists tech. unfold keyed. now rewrite Eg.
      * intros H. now inversion H.
    + split; [intros (d & H); discriminate|].
      intros H. inversion H as [|? ? (_ & x & X) _]. congruence.
    + split; [intros (d & H); discriminate|].
      intros H. inversion H as [|? ? ((k & X) & _) _].
      unfold keyed in X. rewrite Eg in X. cbn [rbind] in X. congruence.
    + split; [intros (d & H); discriminate|].
      intros H. inversion H as [|? ? ((k & X) & _) _].
      unfold keyed in X. rewrite Eg in X. discriminate X.
Qed.

Lemma count_components_ok_iff rows acc :
  (exists d, count_components rows acc = Ok d) <->
  Forall (fun r => exists k, keyed "target_component" r = Ok k) rows.
Proof.
  revert acc. induction rows as [|r rows IH]; intros acc;
    cbn [count_components].
  - split; [constructor | now exists acc].
  - destruct (row_getitem r "target_component") as [c|] eqn:Eg; cbn [rbind];
      [destruct (dict_key c) as [comp|] eqn:Ek; cbn [rbind]; cbv zeta|].
    + rewrite IH. split.
      * intros H. constructor; [|exact H].
        exists comp. unfold keyed. now rewrite Eg.
      * intros H. now inversion H.
    + split; [intros (d & H); discriminate|].
      intros H. inversion H as [|? ? (k & X) _].
      unfold keyed in X. rewrite Eg in X. cbn [rbind] in X. congruence.
    + split; [intros (d & H); discriminate|].
      intros H. inversion H as [|? ? (k & X) _].
      unfold keyed in X. rewrite Eg in X. discriminate X.
Qed.

Lemma count_components_sum rows acc d :
  count_components rows acc = Ok d ->
  sum_counts d = (sum_counts acc + Z.of_nat (List.length rows))%Z.
Proof.
  revert acc. induction rows as [|r rows IH]; intros acc;
    cbn [count_components List.length].
  - intros [= <-]. lia.
  - destruct (row_getitem r "target_component") as [c|]; [|discriminate].
    cbn [rbind]. destruct (dict_key c) as [comp|]; [|discriminate].
    cbn [rbind]. intros H. rewrite (IH _ H), sum_counts_set.
    destruct (dict_get comp acc); lia.
Qed.

(** What a returned record of statistics was computed from. *)
Lemma get_statistics_some env f st :
  get_statistics float_other env (Some f) = Some st ->
  exists ratings tries g k,
    denied env = false /\
    read_rows f <> [] /\
    mapM (row_rating float_other) (read_rows f) = Ok ratings /\
    mapM row_would_try (read_rows f) = Ok tries /\
    group_ratings float_other (read_rows f) [] = Ok g /\
    count_components (read_rows f) [] = Ok k /\
    total_responses st = Z.of_nat (List.length (read_rows f)) /\
    component_distribution st = k /\
    technique_performance st =
      map (fun kv =>
             (fst kv,
              PrimFloat.div (py_sum (snd kv))
                            (float_of_Z (Z.of_nat (List.length (snd kv))))))
          g.
Proof.
  unfold get_statistics, statistics_body, py_open.
  destruct (denied env); [discriminate|]. cbn [rbind].
  destruct (Nat.eqb_spec (List.length (read_rows f)) 0) as [E|N]; [discriminate|].
  destruct (mapM (row_rating float_other) (read_rows f)) as [ratings|];
    [|discriminate]. cbn [rbind].
  destruct (mapM row_would_try (read_rows f)) as [tries|]; [|discriminate].
  cbn [rbind].
  destruct (group_ratings float_other (read_rows f) []) as [g|]; [|discriminate].
  cbn [rbind].
  destruct (count_components (read_rows f) []) as [k|]; [|discriminate].
  cbn [rbind]. intros [= <-]. exists ratings, tries, g, k.
  repeat split; try reflexivity.
  intros Z. now rewrite Z in N.
Qed.

Lemma row_ok_parts r :
  row_ok float_other r <->
  (exists x, row_rating float_other r = Ok x) /\
  (exists b, row_would_try r = Ok b) /\
  (exists k, keyed "technique_used" r = Ok k) /\
  (exists k, keyed "target_component" r = Ok k).
Proof.
  unfold row_ok.
  now rewrite row_rating_ok_iff, row_would_try_ok_iff, !keyed_ok_iff.
Qed.

Lemma get_statistics_available env f :
  (exists st, get_statistics float_other env (Some f) = Some st) <->
  denied env = false /\ read_rows f <> [] /\
  Forall (row_ok float_other) (read_rows f).
Proof.
  split.
  - intros (st & H).
    destruct (get_statistics_some _ _ _ H)
      as (ratings & tries & g & k & D & N & R & T & G & K & _).
    split; [exact D|]. split; [exact N|].
    assert (FR := proj1 (mapM_ok_iff _ _) (ex_intro _ _ R)).
    assert (FT := proj1 (mapM_ok_iff _ _) (ex_intro _ _ T)).
    assert (FG := proj1 (group_ratings_ok_iff _ _) (ex_intro _ _ G)).
    assert (FK := proj1 (count_components_ok_iff _ _) (ex_intro _ _ K)).
    rewrite Forall_forall in *. intros r I. apply row_ok_parts.
    specialize (FR r I). specialize (FT r I).
    destruct (FG r I) as [X _]. specialize (FK r I). auto.
  - intros (D & N & F).
    assert (P : forall r, In r (read_rows f) ->
                (exists x, row_rating float_other r = Ok x) /\
                (exists b, row_would_try r = Ok b) /\
                (exists k, keyed "technique_used" r = Ok k) /\
                (exists k, keyed "target_component" r = Ok k)).
    { intros r I. apply row_ok_parts. exact (proj1 (Forall_forall _ _) F r I). }
    destruct (proj2 (mapM_ok_iff (row_rating float_other) (read_rows f)))
      as (ratings & R).
    { apply Forall_forall. intros r I. apply (P r I). }
    destruct (proj2 (mapM_ok_iff row_would_try (read_rows f))) as (tries & T).
    { apply Forall_forall. intros r I. apply (P r I). }
    destruct (proj2 (group_ratings_ok_iff (read_rows f) [])) as (g & G).
    { apply Forall_forall. intros r I. destruct (P r I) as (A & _ & B & _). auto. }
    destruct (proj2 (count_components_ok_iff (read_rows f) [])) as (k & K).
    { apply Forall_forall. intros r I. apply (P r I). }
    unfold get_statistics, statistics_body, py_open. rewrite D. cbn [rbind].
    destruct (Nat.eqb_spec (List.length (read_rows f)) 0) as [E|_].
    + destruct (read_rows f); [congruence | discriminate].
    + rewrite R, T, G, K. cbn [rbind]. eauto.
Qed.


(** ** Rows written by [save_feedback] *)






(** ** Logs without a rating column *)

Lemma zip_dict_absent (k : string) (l : list (string * string)) (d : dict cell) :
  dict_get (Some k) d = None ->
  (forall kv, In kv l -> fst kv <> k) ->
  dict_get (Some k)
    (fold_left (fun d kv => dict_set (Some (fst kv)) (CStr (snd kv)) d) l d)
  = None.
Proof.
  revert d. induction l as [|kv l IH]; intros d H N; [exact H|].
  cbn [fold_left]. apply IH.
  - rewrite dict_get_set_other; [exact H|]. cbn [key_eqb].
    apply String.eqb_neq. apply N. now left.
  - intros kv' I. apply N. now right.
Qed.

Lemma restval_absent (k : string) (l : list string) (d : dict cell) :
  dict_get (Some k) d = None ->
  ~ In k l ->
  dict_get (Some k) (fold_left (fun d k' => dict_set (Some k') CNone d) l d)
  = None.
Proof.
  revert d. induction l as [|k' l IH]; intros d H N; [exact H|].
  cbn [fold_left]. apply IH.
  - rewrite dict_get_set_other; [exact H|]. cbn [key_eqb].
    apply String.eqb_neq. intros ->. apply N. now left.
  - intros I. apply N. now right.
Qed.

Lemma dict_row_absent (k : string) (names fields : row) :
  ~ In k names -> dict_get (Some k) (dict_row names fields) = None.
Proof.
  intros N.
  assert (Z : dict_get (Some k) (zip_dict names fields) = None).
  { unfold zip_dict. apply zip_dict_absent; [reflexivity|].
    intros [a b] I. apply in_combine_l in I. cbn [fst]. now intros ->. }
  unfold dict_row.
  destruct (List.length names <? List.length fields)%nat.
  - now rewrite dict_get_set_other.
  - destruct (List.length fields <? List.length names)%nat; [|exact Z].
    apply restval_absent; [exact Z|].
    intros I. apply N.
    rewrite <- (firstn_skipn (List.length fields) names).
    apply in_or_app. now right.
Qed.

Lemma get_statistics_without_rating env (names : row) (records : list row) :
  ~ In "rating" names ->
  get_statistics float_other env (Some (names :: records)) = None.
Proof.
  intros N.
  destruct (get_statistics float_other env (Some (names :: records)))
    as [st|] eqn:E; [exfalso | reflexivity].
  destruct (proj1 (get_statistics_available env (names :: records))
              (ex_intro _ st E)) as (_ & Hne & F).
  unfold read_rows in Hne, F.
  destruct (filter _ records) as [|r rs]; [now apply Hne|].
  cbn [map] in F. inversion F as [|? ? ((s & x & G & _) & _) _].
  now rewrite (dict_row_absent _ _ _ N) in G.
Qed.


(** ** The properties *)

(** X11.  [get_statistics] returns statistics for an existing log
    exactly when the log can be opened, [DictReader] yields at least one
    row, and every row has a rating that [float] accepts, a trial-intent
    field, a technique and a category. *)
Theorem statistics_available_iff (env : Env) (f : file) :
  (exists st, get_statistics float_other env (Some f) = Some st) <->
  denied env = false /\ read_rows f <> [] /\
  Forall (row_ok float_other) (read_rows f).
Proof. apply get_statistics_available. Qed.

(** X12.  Whenever [get_statistics] returns statistics,
    [total_responses] is the number of rows read, it is at least 1, and
    the counts of [component_distribution] add up to it. *)
Theorem statistics_counts_add_up (env : Env) (f : file) (st : Statistics) :
  get_statistics float_other env (Some f) = Some st ->
  total_responses st = Z.of_nat (List.length (read_rows f)) /\
  (1 <= total_responses st)%Z /\
  sum_counts (component_distribution st) = total_responses st.
Proof.
  intros H. destruct (get_statistics_some _ _ _ H)
    as (ratings & tries & g & k & _ & N & _ & _ & _ & K & T & C & _).
  split; [exact T|]. split.
  - rewrite T. destruct (read_rows f); [congruence | cbn [List.length]; lia].
  - rewrite C, T, (count_components_sum _ _ _ K). cbn [sum_counts]. lia.
Qed.




(** X16.  [DictReader] names the fields after the first record of the
    file: if that record has no field "rating", [get_statistics] returns
    [None] whatever records follow. *)
Theorem statistics_need_rating_column
    (env : Env) (names : row) (records : list row) :
  ~ In "rating" names ->
  get_statistics float_other env (Some (names :: records)) = None.
Proof. apply get_statistics_without_rating. Qed.

(** X17.  [_initialize_csv] writes the header only when the file is
    absent.  If the file exists and is empty, the first record saved is
    read as the header: unless one of its fields is the text "rating",
    [get_statistics] returns [None] however many records are saved. *)
Theorem statistics_of_headerless_log
    (env0 env : Env) (fs0 : option file)
    (first : string * Feedback) (others : list (string * Feedback)) :
  _initialize_csv env0 (Some []) = Ok fs0 ->
  ~ In "rating" (row_of first) ->
  get_statistics float_other env (record_all (first :: others) fs0) = None.
Proof.
  intros [= <-] N. rewrite record_all_rows. cbn [rows_of app map].
  now apply get_statistics_without_rating.
Qed.

Lemma short_row_would_try (r : row) :
  r <> [] -> (List.length r < 8)%nat ->
  dict_get (Some "would_try") (dict_row header r) = Some CNone.
Proof.
  intros N L.
  destruct r as [|a [|b [|c [|d [|e [|g [|h [|i r]]]]]]]];
    try congruence; try reflexivity.
  cbn [List.length] in L. lia.
Qed.

(** X18.  Under the standard header, one non-blank record with fewer
    than eight fields makes [get_statistics] return [None] for the whole
    log. *)
Theorem statistics_none_on_short_row
    (env : Env) (records : list row) (r : row) :
  In r records -> r <> [] -> (List.length r < 8)%nat ->
  get_statistics float_other env (Some (header :: records)) = None.
Proof.
  intros I N L.
  destruct (get_statistics float_other env (Some (header :: records)))
    as [st|] eqn:E; [exfalso | reflexivity].
  destruct (proj1 (get_statistics_available env (header :: records))
              (ex_intro _ st E)) as (_ & _ & F).
  assert (M : In (dict_row header r) (read_rows (header :: records))).
  { unfold read_rows. apply in_map. apply filter_In. split; [exact I|].
    destruct r; [congruence | reflexivity]. }
  destruct (proj1 (Forall_forall _ _) F _ M) as (_ & (s & W) & _).
  rewrite (short_row_would_try r N L) in W. discriminate.
Qed.

End Statistics.

(** ** Witnesses *)

Lemma good_log_statistics :
  get_statistics no_other_float calm (Some good_log) = Some good_stats.
Proof. vm_compute. reflexivity. Qed.

Lemma statistics_counts_add_up_witness :
  get_statistics no_other_float calm (Some good_log) = Some good_stats /\
  total_responses good_stats = Z.of_nat (List.length (read_rows good_log)) /\
  (1 <= total_responses good_stats)%Z /\
  sum_counts (component_distribution good_stats) = total_responses good_stats.
Proof.
  exact (conj good_log_statistics
    (statistics_counts_add_up no_other_float calm good_log good_stats
       good_log_statistics)).
Defined.





Lemma no_rating_among_two : ~ In "rating" ["timestamp"; "score"].
Proof. intros [H|[H|[]]]; discriminate H. Qed.

Lemma statistics_need_rating_column_witness :
  ~ In "rating" ["timestamp"; "score"] /\
  get_statistics no_other_float calm
    (Some (["timestamp"; "score"] :: [["2024-05-01 09:30:00"; "4"]])) = None.
Proof.
  exact (conj no_rating_among_two
    (statistics_need_rating_column no_other_float calm
       ["timestamp"; "score"] [["2024-05-01 09:30:00"; "4"]]
       no_rating_among_two)).
Defined.

Lemma no_rating_in_first_record :
  ~ In "rating" (row_of ("2024-05-01 09:30:00", fb_yes)).
Proof.
  intros H. vm_compute in H.
  repeat (destruct H as [H|H]; [discriminate H|]). exact H.
Qed.

Lemma statistics_of_headerless_log_witness :
  _initialize_csv calm (Some []) = Ok (Some []) /\
  ~ In "rating" (row_of ("2024-05-01 09:30:00", fb_yes)) /\
  get_statistics no_other_float calm
    (record_all [ ("2024-05-01 09:30:00", fb_yes);
                  ("2024-05-01 09:32:00", fb_no) ] (Some [])) = None.
Proof.
  exact (conj eq_refl (conj no_rating_in_first_record
    (statistics_of_headerless_log no_other_float calm calm (Some [])
       ("2024-05-01 09:30:00", fb_yes) [("2024-05-01 09:32:00", fb_no)]
       eq_refl no_rating_in_first_record))).
Defined.

Lemma cut_record_in_log :
  In [ "2024-05-01 09:31:00"; "read daily"; "no time"; "opportunity";
       "Habit Stacking"; "Habit Formation" ]
     [ row_of ("2024-05-01 09:30:00", fb_yes);
       [ "2024-05-01 09:31:00"; "read daily"; "no time"; "opportunity";
         "Habit Stacking"; "Habit Formation" ] ].
Proof. right. now left. Qed.

Lemma cut_record_nonempty :
  [ "2024-05-01 09:31:00"; "read daily"; "no time"; "opportunity";
    "Habit Stacking"; "Habit Formation" ] <> [].
Proof. discriminate. Qed.

Lemma cut_record_short :
  (List.length [ "2024-05-01 09:31:00"; "read daily"; "no time";
                 "opportunity"; "Habit Stacking"; "Habit Formation" ] < 8)%nat.
Proof. cbn. lia. Qed.

Lemma statistics_none_on_short_row_witness :
  In [ "2024-05-01 09:31:00"; "read daily"; "no time"; "opportunity";
       "Habit Stacking"; "Habit Formation" ]
     [ row_of ("2024-05-01 09:30:00", fb_yes);
       [ "2024-05-01 09:31:00"; "read daily"; "no time"; "opportunity";
         "Habit Stacking"; "Habit Formation" ] ] /\
  [ "2024-05-01 09:31:00"; "read daily"; "no time"; "opportunity";
    "Habit Stacking"; "Habit Formation" ] <> [] /\
  (List.length [ "2024-05-01 09:31:00"; "read daily"; "no time";
                 "opportunity"; "Habit Stacking"; "Habit Formation" ] < 8)%nat /\
  get_statistics no_other_float calm (Some cut_log) = None.
Proof.
  exact (conj cut_record_in_log (conj cut_record_nonempty (conj cut_record_short
    (statistics_none_on_short_row no_other_float calm _ _
       cut_record_in_log cut_record_nonempty cut_record_short)))).
Defined.

End StatisticsFacts.
